(** * Simple-SVT-HEVC-GUI: the encode worker and the job queue

    A shallow embedding of [Simple-GUI.py]: the worker thread
    [encode_thread] (preamble loop, progress loop, per-line statistics), the
    queue handlers of the event loop of [the_gui] (remove, up, down, start,
    stop, pause, job events, clean-up at exit), and the interleaving of the
    two threads over the shared queues and [threading.Event] flags. *)

From Stdlib Require Import ZArith List String Ascii Bool Lia Floats Permutation.
Import ListNotations.
Set Warnings "-inexact-float".
Open Scope string_scope.
Open Scope Z_scope.

(** ** Python values, exceptions and results *)

Module Py.

(** The exceptions the modelled code can raise. *)
Inductive exn : Type :=
| TypeError
| ValueError
| IndexError
| OverflowError
| ZeroDivisionError
| OSError.

(** The outcome of evaluating a Python expression or statement. *)
Inductive result (A : Type) : Type :=
| Returned (a : A)
| Raised (e : exn).
Arguments Returned {A} a.
Arguments Raised {A} e.

Definition bind {A B : Type} (r : result A) (k : A -> result B) : result B :=
  match r with
  | Returned a => k a
  | Raised e => Raised e
  end.

Definition raises {A : Type} (r : result A) : bool :=
  match r with Returned _ => false | Raised _ => true end.

(** The values found under ["frame_count"] of the metadata dict:
    pymediainfo gives [None], an [int], or a [str]. *)
Inductive value : Type :=
| VNone
| VInt (n : Z)
| VStr (s : string).

End Py.

Import Py.

Notation "x <- r ;; k" := (Py.bind r (fun x => k))
  (at level 61, r at next level, right associativity).

(** ** Strings *)

Module Str.

(** [s[:n]] *)
Fixpoint take (n : nat) (s : string) : string :=
  match n, s with
  | S n', String c s' => String c (take n' s')
  | _, _ => EmptyString
  end.

(** [s.startswith(p)] *)
Fixpoint starts_with (p s : string) : bool :=
  match p, s with
  | EmptyString, _ => true
  | String a p', String b s' => Ascii.eqb a b && starts_with p' s'
  | String _ _, EmptyString => false
  end.

(** ASCII white space as [str.strip] and [str.split] see it. *)
Definition is_space (c : ascii) : bool :=
  let n := nat_of_ascii c in
  ((9 <=? n) && (n <=? 13) || (28 <=? n) && (n <=? 32))%nat.

Fixpoint lstrip (s : string) : string :=
  match s with
  | String c s' => if is_space c then lstrip s' else s
  | EmptyString => EmptyString
  end.

Fixpoint rstrip (s : string) : string :=
  match s with
  | EmptyString => EmptyString
  | String c s' =>
      match rstrip s' with
      | EmptyString => if is_space c then EmptyString else String c EmptyString
      | r => String c r
      end
  end.

(** [s.strip()] *)
Definition strip (s : string) : string := rstrip (lstrip s).

(** The first of [seps] that is a prefix of [s], in the order given. *)
Fixpoint first_match (seps : list string) (s : string) : option string :=
  match seps with
  | [] => None
  | p :: seps' => if starts_with p s then Some p else first_match seps' s
  end.

(** [re.split("p1|p2|...", s)] for non-empty literal alternatives: the scan
    goes left to right, at each position the alternatives are tried in
    order, and the text between two matches is one piece.  [skip] counts
    the characters of the current match still to be dropped, [cur] is the
    piece under construction. *)
Fixpoint split_go (seps : list string) (skip : nat) (cur : string) (s : string)
  : list string :=
  match s with
  | EmptyString => [cur]
  | String c s' =>
      match skip with
      | S k => split_go seps k cur s'
      | O =>
          match first_match seps s with
          | Some p => cur :: split_go seps (pred (String.length p)) EmptyString s'
          | None => split_go seps O (cur ++ String c EmptyString) s'
          end
      end
  end.

Definition re_split (seps : list string) (s : string) : list string :=
  split_go seps O EmptyString s.

(** [s.replace(old, "")] for a non-empty [old]. *)
Fixpoint remove_go (old : string) (skip : nat) (s : string) : string :=
  match s with
  | EmptyString => EmptyString
  | String c s' =>
      match skip with
      | S k => remove_go old k s'
      | O =>
          if starts_with old s
          then remove_go old (pred (String.length old)) s'
          else String c (remove_go old O s')
      end
  end.

Definition remove_all (old s : string) : string := remove_go old O s.

Definition digit_of (c : ascii) : option Z :=
  let n := nat_of_ascii c in
  if ((48 <=? n) && (n <=? 57))%nat then Some (Z.of_nat n - 48) else None.

Definition is_underscore (c : ascii) : bool := Ascii.eqb c "_"%char.

(** The digits of an [int] literal, after the sign: at least one digit, and
    single underscores between digits only.  [prev] tells whether the
    previous character was a digit. *)
Fixpoint digits_go (acc : Z) (prev : bool) (s : string) : option Z :=
  match s with
  | EmptyString => if prev then Some acc else None
  | String c s' =>
      match digit_of c with
      | Some d => digits_go (10 * acc + d) true s'
      | None =>
          if is_underscore c && prev then digits_go acc false s' else None
      end
  end.

(** White space as [int] sees it in an ASCII text: the characters 9 to 13
    and the space; the separators 28 to 31, which [str.strip] takes off,
    make the literal invalid. *)
Definition is_int_space (c : ascii) : bool :=
  let n := nat_of_ascii c in
  ((9 <=? n) && (n <=? 13) || (n =? 32))%nat.

Fixpoint int_lstrip (s : string) : string :=
  match s with
  | String c s' => if is_int_space c then int_lstrip s' else s
  | EmptyString => EmptyString
  end.

Fixpoint int_rstrip (s : string) : string :=
  match s with
  | EmptyString => EmptyString
  | String c s' =>
      match int_rstrip s' with
      | EmptyString =>
          if is_int_space c then EmptyString else String c EmptyString
      | r => String c r
      end
  end.

(** The number of digits of a literal, underscores left out. *)
Fixpoint count_digits (s : string) : Z :=
  match s with
  | EmptyString => 0
  | String c s' =>
      match digit_of c with
      | Some _ => 1 + count_digits s'
      | None => count_digits s'
      end
  end.

(** [sys.get_int_max_str_digits()], as Python 3.11 and later set it. *)
Definition max_str_digits : Z := 4300.

(** [int(s)] for an ASCII [str]: white space around, an optional sign,
    decimal digits, at most [max_str_digits] of them; anything else raises
    [ValueError].  (On a text with a character beyond ASCII this gives
    [ValueError], where Python also takes the decimal digits and the
    spaces of other scripts.) *)
Definition int_of_string (s : string) : Py.result Z :=
  let literal := int_rstrip (int_lstrip s) in
  if max_str_digits <? count_digits literal then Raised ValueError else
  match literal with
  | String "-"%char s' =>
      match digits_go 0 false s' with
      | Some n => Returned (- n)
      | None => Raised ValueError
      end
  | String "+"%char s' =>
      match digits_go 0 false s' with
      | Some n => Returned n
      | None => Raised ValueError
      end
  | s' =>
      match digits_go 0 false s' with
      | Some n => Returned n
      | None => Raised ValueError
      end
  end.

End Str.

(** [int(x)] of a metadata value. *)
Definition py_int (v : Py.value) : Py.result Z :=
  match v with
  | VNone => Raised TypeError
  | VInt n => Returned n
  | VStr s => Str.int_of_string s
  end.

(** ** Numbers: Python [int] as [Z], Python [float] as binary64 *)

Module Num.

Open Scope float_scope.

(** The binary64 value nearest to [m * 2^e] (ties to even), or
    [OverflowError] where it is beyond the largest finite float. *)
Definition round_to_float (m e : Z) (negzero : bool) : Py.result float :=
  let f := SF2Prim (binary_normalize prec emax m e negzero) in
  if is_infinity f then Raised OverflowError else Returned f.

(** The conversion of an [int] operand in mixed [int]/[float] arithmetic. *)
Definition of_int (n : Z) : Py.result float := round_to_float n 0 false.

(** [a / b] on two [int]s: the correctly rounded quotient.  The quotient
    is taken with at least 64 bits and a sticky last bit, then rounded
    once. *)
Definition int_truediv (a b : Z) : Py.result float :=
  if (b =? 0)%Z then Raised ZeroDivisionError
  else
    let neg := xorb (a <? 0)%Z (b <? 0)%Z in
    let a' := Z.abs a in
    let b' := Z.abs b in
    let s := Z.max 0 (64 + Z.log2 b' - Z.log2 a') in
    let q := (Z.shiftl a' s / b')%Z in
    let r := (Z.shiftl a' s mod b')%Z in
    let m := (2 * q + (if (r =? 0)%Z then 0 else 1))%Z in
    round_to_float (if neg then - m else m)%Z (- s - 1) neg.

(** [x * n], [x / n], [n / x] with [x] a [float] and [n] an [int]. *)
Definition int_mul_float (n : Z) (x : float) : Py.result float :=
  y <- of_int n ;; Returned (y * x).

Definition float_div_int (x : float) (n : Z) : Py.result float :=
  y <- of_int n ;;
  if (n =? 0)%Z then Raised ZeroDivisionError else Returned (x / y).

Definition int_div_float (n : Z) (x : float) : Py.result float :=
  y <- of_int n ;;
  if is_zero x then Raised ZeroDivisionError else Returned (y / x).

(** [int(x)] on a [float]: truncation towards zero. *)
Definition trunc (x : float) : Py.result Z :=
  match Prim2SF x with
  | S754_zero _ => Returned 0%Z
  | S754_infinity _ => Raised OverflowError
  | S754_nan => Raised ValueError
  | S754_finite s m e =>
      let a := if (0 <=? e)%Z then Z.shiftl (Zpos m) e
               else Z.shiftr (Zpos m) (- e) in
      Returned (if s then - a else a)%Z
  end.

(** [round(x)] on a [float]: the nearest [int], ties to even. *)
Definition round_half_even (x : float) : Py.result Z :=
  match Prim2SF x with
  | S754_zero _ => Returned 0%Z
  | S754_infinity _ => Raised OverflowError
  | S754_nan => Raised ValueError
  | S754_finite s m e =>
      let a :=
        if (0 <=? e)%Z then Z.shiftl (Zpos m) e
        else
          let q := Z.shiftr (Zpos m) (- e) in
          let twice_rest := (2 * (Zpos m - Z.shiftl q (- e)))%Z in
          let unit := Z.shiftl 1 (- e) in
          if (unit <? twice_rest)%Z then (q + 1)%Z
          else if (twice_rest <? unit)%Z then q
          else if Z.even q then q else (q + 1)%Z in
      Returned (if s then - a else a)%Z
  end.

End Num.

(** ** The statistics of one progress line (lines 153-178) *)

Module Progress.

Open Scope float_scope.

(** What [format_seconds] prints: ["{} seconds"], ["{} minutes"] or
    ["{:.2f} hours"]; [NoEta] is the initial [time_to_complete = ""]. *)
Inductive eta : Type :=
| NoEta
| Seconds (n : Z)
| Minutes (n : Z)
| Hours (h : float).

(** The arguments of the format string appended to [status_deque] at line
    178: [split[1]], [total_frames], [split[2]], [percent_done], [est_size],
    the elapsed seconds [calc_time] renders, and [time_to_complete]. *)
Record sample : Type := Sample {
  frame_field : string;
  total_field : Z;
  fps_field : string;
  percent_done : float;
  est_size : float;
  elapsed : float;
  time_to_complete : eta
}.

(** The labels [re.split] cuts a progress line at. *)
Definition labels : list string := ["frame="; "fps="; "q="; "size="; "time="].

(** [line[:3] == "fra"] *)
Definition is_progress_line (line : string) : bool :=
  String.eqb (Str.take 3 line) "fra".

(** [split[i]] *)
Definition index (split : list string) (i : nat) : Py.result string :=
  match nth_error split i with
  | Some s => Returned s
  | None => Raised IndexError
  end.

(** [format_seconds(seconds)] *)
Definition format_seconds (seconds : float) : Py.result eta :=
  if seconds <? 60 then
    n <- Num.trunc seconds ;; Returned (Seconds n)
  else if seconds <? 3600 then
    n <- Num.round_half_even (seconds / 60) ;; Returned (Minutes n)
  else Returned (Hours (seconds / 3600)).

(** The divisor of the rate extrapolation at line 170:
    [1 if done_frames == 0 else done_frames]. *)
Definition rate_divisor (done_frames : Z) : Z :=
  if (done_frames =? 0)%Z then 1%Z else done_frames.

(** Line 166: [100 - (((total_frames - done_frames) / total_frames) * 100)] *)
Definition percent (total_frames done_frames : Z) : Py.result float :=
  q <- Num.int_truediv (total_frames - done_frames) total_frames ;;
  Returned (100 - q * 100).

(** Line 170: the seconds handed to [format_seconds];
    [now] is [time.time() - start_time]. *)
Definition remaining_seconds (total_frames done_frames : Z) (now : float)
  : Py.result float :=
  p <- Num.int_mul_float (total_frames - done_frames) now ;;
  Num.float_div_int p (rate_divisor done_frames).

(** Line 170: [time_to_complete]. *)
Definition eta_text (total_frames done_frames : Z) (now : float)
  : Py.result eta :=
  secs <- remaining_seconds total_frames done_frames now ;;
  format_seconds secs.

(** Lines 174-175: the size estimate in MiB. *)
Definition estimate (size_field : string) (percent_done : float)
  : Py.result float :=
  cur_size <- Str.int_of_string (Str.remove_all "kB" size_field) ;;
  q <- Num.int_div_float (cur_size * 100) percent_done ;;
  Num.float_div_int q 1024.

(** The body of [if line:] at lines 156-178, for the [total_frames] of the
    job and the two clock readings of lines 170 and 177, both as seconds
    since [start_time].  Gives the new [done_frames] and the sample put on
    [status_deque]. *)
Definition process_line (total_frames : Z) (now1 now2 : float) (line : string)
  : Py.result (Z * sample) :=
  let split := Str.re_split labels line in
  frame <- index split 1 ;;
  done_frames <- Str.int_of_string frame ;;
  stats <-
    (if (total_frames =? 0)%Z then Returned (0, NoEta)
     else
       p <- percent total_frames done_frames ;;
       t <- eta_text total_frames done_frames now1 ;;
       Returned (p, t)) ;;
  let '(percent_done, time_to_complete) := stats in
  est_size <-
    (if 0 <? percent_done then
       size <- index split 4 ;;
       estimate size percent_done
     else Returned 0) ;;
  fps <- index split 2 ;;
  Returned (done_frames,
            Sample frame total_frames fps percent_done est_size now2
                   time_to_complete).

End Progress.

(** ** The job list of the GUI (lines 503-510, 660-689, 705, 748-753) *)

Module Jobs.

(** The three status texts of the program. *)
Definition waiting : string := "⏱ waiting".
Definition started : string := "▶ started".
Definition finished : string := "✓ finished".

(** The dict appended to [encode_list] at line 705.  Its ["metadata"] entry
    is a reference to the one [video_metadata] dict of [the_gui], which is
    kept in the state of the system instead.  [test_encode] is [None] for
    [False]. *)
Record job : Type := Job {
  title : string;
  uuid : string;
  status : string;
  output_file : string;
  command : list string;
  test_encode : option Z
}.

Definition set_status (st : string) (j : job) : job :=
  Job (title j) (uuid j) st (output_file j) (command j) (test_encode j).

(** [l.pop(i)] for [i] in range, the list that is left. *)
Fixpoint pop (i : nat) (l : list job) : list job :=
  match i, l with
  | _, [] => []
  | O, _ :: l' => l'
  | S i', x :: l' => x :: pop i' l'
  end.

(** [l.insert(i, x)] for [0 <= i]: beyond the end it appends. *)
Fixpoint insert (i : nat) (x : job) (l : list job) : list job :=
  match i, l with
  | O, _ => x :: l
  | S i', y :: l' => y :: insert i' x l'
  | S _, [] => [x]
  end.

(** The line of the list box for a job (line 504). *)
Definition display (j : job) : string :=
  status j ++ " | " ++ title j ++ " - " ++ uuid j.

(** [s.split()]: the maximal runs of characters that are not white space. *)
Fixpoint words_go (cur : string) (s : string) : list string :=
  match s with
  | EmptyString => match cur with EmptyString => [] | _ => [cur] end
  | String c s' =>
      if Str.is_space c then
        match cur with
        | EmptyString => words_go EmptyString s'
        | _ => cur :: words_go EmptyString s'
        end
      else words_go (cur ++ String c EmptyString) s'
  end.

Definition words (s : string) : list string := words_go EmptyString s.

(** [queue_item.split()[-1]] *)
Definition last_word (s : string) : Py.result string :=
  match rev (words s) with
  | w :: _ => Returned w
  | [] => Raised IndexError
  end.

(** The inner loop of "Remove task" (lines 664-666): [enumerate] walks the
    indices of the list as it is at each turn, so a [pop] at [i] makes the
    walk pass over the element that moves into place [i].  [fuel] bounds
    the turns; the length of the list is enough. *)
Fixpoint remove_scan (fuel : nat) (job_id : string) (i : nat) (l : list job)
  : list job :=
  match fuel with
  | O => l
  | S fuel' =>
      match nth_error l i with
      | None => l
      | Some j =>
          if String.eqb (uuid j) job_id && negb (String.eqb (status j) started)
          then remove_scan fuel' job_id (S i) (pop i l)
          else remove_scan fuel' job_id (S i) l
      end
  end.

Definition remove_one (job_id : string) (l : list job) : list job :=
  remove_scan (List.length l) job_id 0 l.

(** The outer loop of "Remove task" (lines 661-666) over the selected
    lines of the list box. *)
Fixpoint remove_task (selected : list string) (l : list job)
  : Py.result (list job) :=
  match selected with
  | [] => Returned l
  | queue_item :: rest =>
      job_id <- last_word queue_item ;;
      remove_task rest (remove_one job_id l)
  end.

(** The loop of "UP" (lines 674-676). *)
Fixpoint up_scan (fuel : nat) (job_id : string) (i : nat) (l : list job)
  : list job :=
  match fuel with
  | O => l
  | S fuel' =>
      match nth_error l i with
      | None => l
      | Some j =>
          if String.eqb (uuid j) job_id && negb (Nat.eqb i 0)
          then up_scan fuel' job_id (S i) (insert (i - 1)%nat j (pop i l))
          else up_scan fuel' job_id (S i) l
      end
  end.

(** The loop of "DOWN" (lines 684-686). *)
Fixpoint down_scan (fuel : nat) (job_id : string) (i : nat) (l : list job)
  : list job :=
  match fuel with
  | O => l
  | S fuel' =>
      match nth_error l i with
      | None => l
      | Some j =>
          if String.eqb (uuid j) job_id && negb (Nat.eqb i (List.length l - 1)%nat)
          then down_scan fuel' job_id (S i) (insert (i + 1)%nat j (pop i l))
          else down_scan fuel' job_id (S i) l
      end
  end.

(** The guard and the job id of "UP" and "DOWN" (lines 672-673, 682-683):
    exactly one selected line and more than one job; [None] when the
    handler does nothing. *)
Definition single_selection (selected : list string) (l : list job)
  : Py.result (option string) :=
  match selected with
  | [queue_item] =>
      if (1 <? List.length l)%nat
      then job_id <- last_word queue_item ;; Returned (Some job_id)
      else Returned None
  | _ => Returned None
  end.

(** What "Remove task" keeps for one selected id. *)
Definition kept (job_id : string) (x : job) : bool :=
  negb (String.eqb (uuid x) job_id && negb (String.eqb (status x) started)).

(** A text without white space. *)
Definition no_space (u : string) : Prop :=
  Forall (fun c => Str.is_space c = false) (list_ascii_of_string u).

(** What [build_encode_queue] puts after clearing (lines 508-510). *)
Definition waiting_jobs (l : list job) : list job :=
  filter (fun j => String.eqb (status j) waiting) l.

(** The status update on a job event (lines 748-752). *)
Definition apply_event (job_id event : string) (l : list job) : list job :=
  map (fun j => if String.eqb (uuid j) job_id then set_status event j else j) l.

(** The number of jobs shown as started. *)
Definition running_count (l : list job) : nat :=
  List.length (filter (fun j => String.eqb (status j) started) l).

End Jobs.

(** ** The two threads and what they share

    The state holds the objects the worker thread and the GUI thread
    share (the three queues, the deque of length one, the three
    [threading.Event] flags, the [video_metadata] dict every job refers
    to), the job list of the GUI, and the place of each thread in its
    code.  A step is one operation on a shared object by one thread,
    together with the work on its own variables that leads to it; the two
    threads interleave step by step.  The dict put on [encode_queue] is the
    dict of [encode_list]; only its status entry is ever written, and the
    worker reads none, so the queue holds the job by value. *)

Module Sys.

Import Jobs Progress.

(** What travels on [encode_queue]: a job dict, [_sentinel] or [_skip]. *)
Inductive item : Type :=
| Params (j : job)
| Sentinel
| Skip.

(** The dicts put on [encode_event] (lines 121 and 208). *)
Record event : Type := Event { ev_uuid : string; ev_event : string }.

(** The texts put on [gui_queue]: the two fixed ones (lines 139, 146) and
    the closing report of a job (line 209). *)
Inductive message : Type :=
| Text (s : string)
| EndOfJob (job_title : string) (seconds : float) (done_frames : Z)
           (size_analysis : string).

(** The texts appended to [status_deque]: the statistics of a progress line
    (line 178) and [end_string] (line 210). *)
Inductive status_line : Type :=
| Stats (s : sample)
| EndString (job_title : string) (seconds : float) (done_frames : Z).

(** The entries of [video_metadata] the modelled code reads. *)
Record metadata : Type := Metadata {
  md_name : string;
  md_contains_video : bool;
  md_frame_count : Py.value
}.

(** Where the worker thread stands in [encode_thread]. *)
Inductive worker_pc : Type :=
| WTop                                   (* line 101 *)
| WWait                                  (* line 102, inside [wait()] *)
| WGet                                   (* line 104, inside [get()] *)
| WParams (params : job)                 (* lines 111-122 *)
| WSpawn (params : job) (total_frames : Z)                   (* line 124 *)
| WPreamble (params : job) (total_frames : Z)
            (stdout : list string) (msg : string)       (* lines 130-139 *)
| WProgress (params : job) (total_frames : Z)
            (stdout : list string) (done_frames : Z)    (* lines 144-178 *)
| WInspect (params : job) (done_frames : Z)             (* lines 180-201 *)
| WFinish (params : job) (done_frames : Z)
          (size_analysis : string)                      (* lines 203-210 *)
| WExit                                  (* after [break] at line 106 *)
| WDead (e : Py.exn).                    (* an exception ended the thread *)

(** Where the GUI thread stands in [the_gui]. *)
Inductive gui_pc : Type :=
| GInit                       (* thread started, before line 432 *)
| GIdle                       (* in the event loop, between handlers *)
| GBuild (todo : list job)    (* in the [for] of [build_encode_queue] *)
| GStopPause                  (* line 714, before [pause_queue()] *)
| GPutSkip                    (* line 718, before [put(_skip)] *)
| GExitClear                  (* line 772 *)
| GExitSentinel               (* line 773 *)
| GExitActivate               (* line 774 *)
| GJoin                       (* line 779 *)
| GClosed.

Record state : Type := State {
  encode_list : list job;
  video_metadata : metadata;
  encode_queue : list item;
  encode_event : list event;
  gui_queue : list message;
  status_deque : option status_line;
  stoprequest : bool;
  encode_running : bool;
  encode_queue_active : bool;
  worker : worker_pc;
  gui : gui_pc
}.

(** What the worker takes from outside at a step: the output of the process
    it spawns ([None]: [Popen] raises), the two clock readings of a progress
    line as seconds since [start_time], and the size report drawn from
    [MediaInfo.parse] ([None]: it raises). *)
Record world : Type := World {
  spawn : option (list string);
  clock1 : float;
  clock2 : float;
  inspect : option string
}.

Definition newline : string := String (ascii_of_nat 10) EmptyString.

(** Line 116 *)
Definition total_frames_of (test_encode : option Z) (frame_count : Py.value)
  : Py.result Z :=
  match test_encode with
  | Some n => if (n =? 0)%Z then py_int frame_count else Returned n
  | None => py_int frame_count
  end.

Definition set_worker (pc : worker_pc) (s : state) : state :=
  State (encode_list s) (video_metadata s) (encode_queue s) (encode_event s)
        (gui_queue s) (status_deque s) (stoprequest s) (encode_running s)
        (encode_queue_active s) pc (gui s).

(** Where the worker goes with what it took off the queue
    (lines 105-108). *)
Definition after_get (it : item) : worker_pc :=
  match it with
  | Sentinel => WExit
  | Skip => WTop
  | Params j => WParams j
  end.

(** One atomic action of the worker thread; [None] where it is blocked or
    has ended. *)
Definition worker_step (w : world) (s : state) : option state :=
  match worker s with
  | WTop =>
      Some (set_worker (if encode_queue_active s then WGet else WWait) s)
  | WWait =>
      if encode_queue_active s then Some (set_worker WGet s) else None
  | WGet =>
      match encode_queue s with
      | [] => None
      | it :: rest =>
          Some (State (encode_list s) (video_metadata s) rest (encode_event s)
                      (gui_queue s) (status_deque s) (stoprequest s)
                      (encode_running s) (encode_queue_active s)
                      (after_get it) (gui s))
      end
  | WParams j =>
      match total_frames_of (test_encode j) (md_frame_count (video_metadata s)) with
      | Raised e => Some (set_worker (WDead e) s)
      | Returned total =>
          Some (State (encode_list s) (video_metadata s) (encode_queue s)
                      (encode_event s ++ [Event (uuid j) started])%list
                      (gui_queue s) (status_deque s) (stoprequest s)
                      true (encode_queue_active s) (WSpawn j total) (gui s))
      end
  | WSpawn j total =>
      match spawn w with
      | None => Some (set_worker (WDead OSError) s)
      | Some out => Some (set_worker (WPreamble j total out EmptyString) s)
      end
  | WPreamble j total out msg =>
      let leave rest :=
        State (encode_list s) (video_metadata s) (encode_queue s)
              (encode_event s)
              (gui_queue s ++ [Text "START ENCODE VIDEO"])%list
              (status_deque s) (stoprequest s) (encode_running s)
              (encode_queue_active s) (WProgress j total rest 0) (gui s) in
      match out with
      | [] => Some (leave [])
      | line :: rest =>
          if is_progress_line line then Some (leave rest)
          else Some (set_worker
                       (WPreamble j total rest (msg ++ Str.strip line ++ newline))
                       s)
      end
  | WProgress j total out done_frames =>
      if stoprequest s then
        Some (State (encode_list s) (video_metadata s) (encode_queue s)
                    (encode_event s)
                    (gui_queue s ++ [Text "Reiceived kill signal, stopping..."])%list
                    (status_deque s) (stoprequest s) (encode_running s)
                    (encode_queue_active s) (WInspect j done_frames) (gui s))
      else
        match out with
        | [] => Some (set_worker (WInspect j done_frames) s)
        | line :: rest =>
            if is_progress_line line then
              match process_line total (clock1 w) (clock2 w) line with
              | Raised e => Some (set_worker (WDead e) s)
              | Returned (done_frames', smp) =>
                  Some (State (encode_list s) (video_metadata s)
                              (encode_queue s) (encode_event s) (gui_queue s)
                              (Some (Stats smp)) (stoprequest s)
                              (encode_running s) (encode_queue_active s)
                              (WProgress j total rest done_frames') (gui s))
              end
            else Some (set_worker (WInspect j done_frames) s)
        end
  | WInspect j done_frames =>
      match inspect w with
      | None => Some (set_worker (WDead OSError) s)
      | Some report => Some (set_worker (WFinish j done_frames report) s)
      end
  | WFinish j done_frames report =>
      Some (State (encode_list s) (video_metadata s) (encode_queue s)
                  (encode_event s ++ [Event (uuid j) finished])%list
                  (gui_queue s ++ [EndOfJob (title j) (clock2 w) done_frames report])%list
                  (Some (EndString (title j) (clock2 w) done_frames))
                  false false (encode_queue_active s) WTop (gui s))
  | WExit => None
  | WDead _ => None
  end.

(** What the user and the window feed the event loop with.  [StartEncode]
    stands for the last branch of lines 694-709 with input and output set
    and [int(params["n_frames"])] evaluated: it carries the [uuid4().hex] drawn,
    the output path, the command and [test_encode].  [Continue] is the
    next operation of a handler that touches the shared objects more than
    once. *)
Inductive gui_action : Type :=
| Launch                                  (* line 432 *)
| Input (md : metadata)                   (* "-INPUT-", lines 519-580 *)
| StartEncode (job_id out : string) (cmd : list string)
              (test : option Z)           (* lines 693-709 *)
| RemoveTask (selected : list string)     (* lines 660-669 *)
| Up (selected : list string)             (* lines 671-679 *)
| Down (selected : list string)           (* lines 681-689 *)
| StopEncode                              (* lines 711-714 *)
| PauseQueue                              (* lines 716-718 *)
| Continue                                (* the handler under way goes on *)
| PollStatus                              (* lines 733-736 *)
| PollMessage                             (* lines 739-742 *)
| PollEvent                               (* lines 744-755 *)
| Exit.                                   (* lines 516-517, 769-770 *)

Definition is_hex (c : ascii) : bool :=
  let n := nat_of_ascii c in
  ((48 <=? n) && (n <=? 57) || (97 <=? n) && (n <=? 102))%nat.

(** [uuid.uuid4().hex]: 32 hexadecimal digits. *)
Definition is_uuid_hex (u : string) : bool :=
  (String.length u =? 32)%nat && forallb is_hex (list_ascii_of_string u).

Definition uuid_in (u : string) (l : list job) : bool :=
  existsb (fun j => String.eqb (uuid j) u) l.

Definition building (todo : list job) : gui_pc :=
  match todo with
  | [] => GIdle
  | _ => GBuild todo
  end.

(** A handler has changed [encode_list] to [l] and calls
    [build_encode_queue()]: [clear_queue] empties the queue under its mutex,
    the [put]s follow one by one. *)
Definition rebuild (l : list job) (s : state) : state :=
  State l (video_metadata s) [] (encode_event s) (gui_queue s)
        (status_deque s) (stoprequest s) (encode_running s)
        (encode_queue_active s) (worker s) (building (waiting_jobs l)).

Definition set_gui (pc : gui_pc) (s : state) : state :=
  State (encode_list s) (video_metadata s) (encode_queue s) (encode_event s)
        (gui_queue s) (status_deque s) (stoprequest s) (encode_running s)
        (encode_queue_active s) (worker s) pc.

Definition set_active (b : bool) (pc : gui_pc) (s : state) : state :=
  State (encode_list s) (video_metadata s) (encode_queue s) (encode_event s)
        (gui_queue s) (status_deque s) (stoprequest s) (encode_running s)
        b (worker s) pc.

Definition set_stoprequest (pc : gui_pc) (s : state) : state :=
  State (encode_list s) (video_metadata s) (encode_queue s) (encode_event s)
        (gui_queue s) (status_deque s) true (encode_running s)
        (encode_queue_active s) (worker s) pc.

Definition put_item (it : item) (pc : gui_pc) (s : state) : state :=
  State (encode_list s) (video_metadata s) (encode_queue s ++ [it])%list
        (encode_event s) (gui_queue s) (status_deque s) (stoprequest s)
        (encode_running s) (encode_queue_active s) (worker s) pc.

Definition worker_ended (pc : worker_pc) : bool :=
  match pc with
  | WExit | WDead _ => true
  | _ => false
  end.

(** The handlers of the event loop, from its idle point.  A fresh id is
    one no job of the list carries; a handler that raises ends the
    program, and so does a draw of [uuid4] outside its range: neither is a
    step. *)
Definition handle (a : gui_action) (s : state) : option state :=
  match a with
  | Input md =>
      Some (State (encode_list s) md (encode_queue s) (encode_event s)
                  (gui_queue s) (status_deque s) (stoprequest s)
                  (encode_running s) (encode_queue_active s) (worker s) GIdle)
  | StartEncode job_id out cmd test =>
      if md_contains_video (video_metadata s) then
        if is_uuid_hex job_id && negb (uuid_in job_id (encode_list s)) then
          let j := Job (md_name (video_metadata s)) job_id waiting out cmd test in
          Some (rebuild (encode_list s ++ [j])%list s)
        else None
      else Some s
  | RemoveTask selected =>
      match remove_task selected (encode_list s) with
      | Returned l => Some (rebuild l s)
      | Raised _ => None
      end
  | Up selected =>
      match single_selection selected (encode_list s) with
      | Returned (Some job_id) =>
          Some (rebuild (up_scan (List.length (encode_list s)) job_id 0
                                 (encode_list s)) s)
      | Returned None => Some s
      | Raised _ => None
      end
  | Down selected =>
      match single_selection selected (encode_list s) with
      | Returned (Some job_id) =>
          Some (rebuild (down_scan (List.length (encode_list s)) job_id 0
                                   (encode_list s)) s)
      | Returned None => Some s
      | Raised _ => None
      end
  | StopEncode => Some (set_stoprequest GStopPause s)
  | PauseQueue =>
      Some (set_active (negb (encode_queue_active s)) GPutSkip s)
  | PollStatus =>
      Some (State (encode_list s) (video_metadata s) (encode_queue s)
                  (encode_event s) (gui_queue s) None (stoprequest s)
                  (encode_running s) (encode_queue_active s) (worker s) GIdle)
  | PollMessage =>
      Some (State (encode_list s) (video_metadata s) (encode_queue s)
                  (encode_event s) (tl (gui_queue s)) (status_deque s)
                  (stoprequest s) (encode_running s) (encode_queue_active s)
                  (worker s) GIdle)
  | PollEvent =>
      match encode_event s with
      | [] => Some s
      | ev :: rest =>
          Some (State (apply_event (ev_uuid ev) (ev_event ev) (encode_list s))
                      (video_metadata s) (encode_queue s) rest (gui_queue s)
                      (status_deque s) (stoprequest s) (encode_running s)
                      (encode_queue_active s) (worker s) GIdle)
      end
  | Exit => Some (set_stoprequest GExitClear s)
  | Launch | Continue => None
  end.

(** One atomic action of the GUI thread; [None] where the action is not
    the one the thread is at. *)
Definition gui_step (a : gui_action) (s : state) : option state :=
  match gui s, a with
  | GInit, Launch => Some (set_active true GIdle s)
  | GIdle, _ => handle a s
  | GBuild (j :: rest), Continue => Some (put_item (Params j) (building rest) s)
  | GStopPause, Continue => Some (set_active false GIdle s)
  | GPutSkip, Continue => Some (put_item Skip GIdle s)
  | GExitClear, Continue =>
      Some (State (encode_list s) (video_metadata s) [] (encode_event s)
                  (gui_queue s) (status_deque s) (stoprequest s)
                  (encode_running s) (encode_queue_active s) (worker s)
                  GExitSentinel)
  | GExitSentinel, Continue => Some (put_item Sentinel GExitActivate s)
  | GExitActivate, Continue => Some (set_active true GJoin s)
  | GJoin, Continue =>
      if worker_ended (worker s) then Some (set_gui GClosed s) else None
  | _, _ => None
  end.

(** The interleaving: at each step one of the two threads moves. *)
Inductive action : Type :=
| Worker (w : world)
| Gui (a : gui_action).

Definition step (a : action) (s : state) : option state :=
  match a with
  | Worker w => worker_step w s
  | Gui g => gui_step g s
  end.

Fixpoint run (t : list action) (s : state) : option state :=
  match t with
  | [] => Some s
  | a :: t' =>
      match step a s with
      | Some s' => run t' s'
      | None => None
      end
  end.

(** The program at the moment the worker thread has been started
    (line 428): no job, no flag set, and the one message of [check_paths]
    waiting on [gui_queue]. *)
Definition initial : state :=
  State [] (Metadata EmptyString false VNone) [] [] [Text "Found ffmpeg"]
        None false false false WTop GInit.

Definition reachable (s : state) : Prop :=
  exists t, run t initial = Some s.

(** The worker is inside the encode of a job: between
    [encode_running.set()] and [encode_running.clear()]. *)
Definition in_job (pc : worker_pc) : bool :=
  match pc with
  | WSpawn _ _ | WPreamble _ _ _ _ | WProgress _ _ _ _
  | WInspect _ _ | WFinish _ _ _ => true
  | _ => false
  end.


(** The job the worker holds in [params]. *)
Definition current (pc : worker_pc) : option job :=
  match pc with
  | WParams j | WSpawn j _ | WPreamble j _ _ _ | WProgress j _ _ _
  | WInspect j _ | WFinish j _ _ => Some j
  | _ => None
  end.

(** The job an action takes off [encode_queue], if it takes one. *)
Definition takes (a : action) (s : state) : option job :=
  match a, worker s, encode_queue s with
  | Worker _, WGet, Params j :: _ => Some j
  | _, _, _ => None
  end.

(** The jobs taken off [encode_queue] along a run, in order. *)
Fixpoint taken (t : list action) (s : state) : list job :=
  match t with
  | [] => []
  | a :: t' =>
      match step a s with
      | Some s' =>
          match takes a s with
          | Some j => j :: taken t' s'
          | None => taken t' s'
          end
      | None => []
      end
  end.

(** A run during which [encode_queue_active] stays cleared. *)
Fixpoint run_paused (t : list action) (s : state) : option state :=
  match t with
  | [] => Some s
  | a :: t' =>
      match step a s with
      | Some s' => if encode_queue_active s' then None else run_paused t' s'
      | None => None
      end
  end.

(** The worker alone, for as long as it is inside a job. *)
Fixpoint job_run (ws : list world) (s : state) : option state :=
  match ws with
  | [] => Some s
  | w :: ws' =>
      if in_job (worker s) then
        match worker_step w s with
        | Some s' => job_run ws' s'
        | None => None
        end
      else None
  end.

(** What the worker reads and writes inside a job. *)
Definition job_view (s : state)
  : worker_pc * bool * bool * list event * list message * option status_line :=
  (worker s, stoprequest s, encode_running s, encode_event s, gui_queue s,
   status_deque s).

(** The events of [encode_event], read from the oldest, come in pairs: a
    start, then the finish of the same job.  [open] is the job whose start
    has been read and whose finish has not. *)
Fixpoint alternates (open : option string) (evs : list event) : Prop :=
  match evs with
  | [] => True
  | ev :: rest =>
      match open with
      | None => ev_event ev = started /\ alternates (Some (ev_uuid ev)) rest
      | Some u => ev = Event u finished /\ alternates None rest
      end
  end.

Fixpoint last_open (open : option string) (evs : list event) : option string :=
  match evs with
  | [] => open
  | ev :: rest =>
      last_open (match open with
                 | None => Some (ev_uuid ev)
                 | Some _ => None
                 end) rest
  end.

(** The job whose start the worker has put on [encode_event] and whose
    finish it has not. *)
Definition emitting (pc : worker_pc) : option string :=
  match pc with
  | WSpawn j _ | WPreamble j _ _ _ | WProgress j _ _ _
  | WInspect j _ | WFinish j _ _ => Some (uuid j)
  | _ => None
  end.

(** The events still to be read agree with where the worker stands; a
    thread that has ended puts no more events. *)
Definition worker_agrees (pc : worker_pc) (open : option string) : Prop :=
  match pc with
  | WDead _ => True
  | _ => open = emitting pc
  end.

(** The invariant of the job list and the event queue. *)
Definition consistent (s : state) : Prop :=
  exists open : option string,
    alternates open (encode_event s)
    /\ (forall j, In j (encode_list s) -> status j = started ->
                  open = Some (uuid j))
    /\ NoDup (map uuid (encode_list s))
    /\ worker_agrees (worker s) (last_open open (encode_event s)).

(** The worker is not about to take a job and has not just taken one. *)
Definition held (pc : worker_pc) : bool :=
  match pc with
  | WGet | WParams _ => false
  | _ => true
  end.





(** What a step of the worker may add to [gui_queue]. *)
Definition worker_message (m : message) : Prop :=
  m = Text "START ENCODE VIDEO"
  \/ m = Text "Reiceived kill signal, stopping..."
  \/ exists t e d r, m = EndOfJob t e d r.

End Sys.

(** ** Inputs used in the examples *)

Module Fixtures.

Import Jobs Sys.

(** The progress line of the specification. *)
Definition example_line : string :=
  "frame=  120 fps= 45 q=28.0 size=   10240kB time=00:00:05.00".

(** The first progress line of an encode. *)
Definition zero_line : string :=
  "frame=    0 fps=0.0 q=0.0 size=       0kB time=00:00:00.00".

(** A progress line as ffmpeg prints it when it knows no output size. *)
Definition no_size_line : string :=
  "frame=  120 fps= 45 q=28.0 size=N/A time=00:00:05.00".

Definition id_a : string := "0123456789abcdef0123456789abcdef".
Definition id_b : string := "fedcba9876543210fedcba9876543210".

(** A file whose frame count mediainfo gives, and one where it does not. *)
Definition film : metadata := Metadata "film.mkv" true (VInt 1000).
Definition film_without_count : metadata := Metadata "film.mkv" true VNone.

Definition job_a : job := Job "film.mkv" id_a waiting "a.mkv" ["ffmpeg"] None.
Definition job_b : job := Job "film.mkv" id_b waiting "b.mkv" ["ffmpeg"] None.

(** The output of an encode: two lines of banner, then progress lines. *)
Definition encoder_output : list string :=
  ["ffmpeg version 4.2.1" ++ newline;
   "Stream mapping:" ++ newline;
   zero_line ++ newline;
   example_line ++ newline;
   "frame=  240 fps= 46 q=28.0 size=   20480kB time=00:00:10.00" ++ newline].

(** The outside at a step of the worker: the encoder starts and prints
    [encoder_output], the clock stands five seconds after the start, and
    the inspection of the output file gives no size report. *)
Definition calm : world := World (Some encoder_output) 5 5 (Some EmptyString).

(** The user picks a film and adds it; the worker has taken the job. *)
Definition add_one (md : metadata) : list action :=
  [Gui Launch; Gui (Input md);
   Gui (StartEncode id_a "a.mkv" ["ffmpeg"] None); Gui Continue;
   Worker calm; Worker calm].

(** The worker starts the job it has taken and the GUI reads the event:
    the job is shown as started. *)
Definition one_running : state :=
  Eval vm_compute in
    match run (add_one film ++ [Worker calm; Gui PollEvent]) initial with
    | Some s => s
    | None => initial
    end.

(** The worker is reading the banner of the encoder. *)
Definition busy : state :=
  Eval vm_compute in
    match run (add_one film ++ [Worker calm; Worker calm; Worker calm])
              initial with
    | Some s => s
    | None => initial
    end.

(** The user stops the encode while the worker reads progress lines; the
    worker ends the job and the GUI reads its two events. *)
Definition stopped_run : list action :=
  add_one film
  ++ repeat (Worker calm) 6
  ++ [Gui StopEncode; Gui Continue]
  ++ repeat (Worker calm) 3
  ++ [Gui PollEvent; Gui PollEvent].

(** The user adds a second job before the GUI has read the start of the
    first: the first, still shown as waiting, is put on the queue again. *)
Definition double_add : list action :=
  add_one film
  ++ [Gui (StartEncode id_b "b.mkv" ["ffmpeg"] None); Gui Continue;
      Gui Continue]
  ++ repeat (Worker calm) 11
  ++ [Gui PollEvent; Gui PollEvent].

(** The worker goes on with the queue and the GUI reads the next event. *)
Definition double_add_next : list action :=
  double_add ++ repeat (Worker calm) 3 ++ [Gui PollEvent].

(** A list with the first job shown as started. *)
Definition running_a : job := set_status started job_a.
Definition finished_a : job := set_status finished job_a.

(** The queue is paused with the worker waiting for the flag, two jobs are
    added, and the user leaves: the GUI has cleared the queue and is about
    to put [_sentinel]. *)
Definition leaving_with_jobs : state :=
  Eval vm_compute in
    match run [Gui Launch; Gui (Input film); Gui PauseQueue; Gui Continue;
               Worker calm;
               Gui (StartEncode id_a "a.mkv" ["ffmpeg"] None); Gui Continue;
               Gui (StartEncode id_b "b.mkv" ["ffmpeg"] None); Gui Continue;
               Gui Continue; Gui Exit; Gui Continue] initial with
    | Some s => s
    | None => initial
    end.

(** The user pauses the queue while the worker reads the banner. *)
Definition busy_paused : state :=
  Eval vm_compute in
    match step (Gui PauseQueue) busy with
    | Some s => s
    | None => busy
    end.

(** What happens after the pause: [_skip] is put, the job runs to its
    end, the worker comes back to the head of its loop and waits for the
    flag, and the user adds a second job. *)
Definition while_paused : list action :=
  [Gui Continue] ++ repeat (Worker calm) 8
  ++ [Gui PollEvent; Gui PollEvent;
      Gui (StartEncode id_b "b.mkv" ["ffmpeg"] None); Gui Continue].


End Fixtures.

(** ** The phases of a job *)

Module Phases.

Import Jobs Progress Sys.

(** The lines the [for] loop of lines 130-135 gathers: those before the
    first progress line. *)
Fixpoint banner (out : list string) : list string :=
  match out with
  | [] => []
  | line :: rest => if is_progress_line line then [] else line :: banner rest
  end.

(** The lines left to the progress loop: those after the first progress
    line, on which the [for] loop breaks. *)
Fixpoint after_banner (out : list string) : list string :=
  match out with
  | [] => []
  | line :: rest => if is_progress_line line then rest else after_banner rest
  end.

(** [msg] after the [for] loop. *)
Fixpoint gathered (msg : string) (lines : list string) : string :=
  match lines with
  | [] => msg
  | line :: rest => gathered (msg ++ Str.strip line ++ newline) rest
  end.

(** The state with another place of the worker, another [gui_queue] and
    another [status_deque]. *)
Definition moved (pc : worker_pc) (gq : list message)
    (sd : option status_line) (s : state) : state :=
  State (encode_list s) (video_metadata s) (encode_queue s) (encode_event s)
        gq sd (stoprequest s) (encode_running s) (encode_queue_active s)
        pc (gui s).

(** The worlds of a run of progress lines: each line is read at its own
    clock readings and treated without an exception. *)
Fixpoint treated (total : Z) (ws : list world) (lines : list string) : Prop :=
  match ws, lines with
  | [], [] => True
  | w :: ws', line :: lines' =>
      is_progress_line line = true
      /\ (exists r, process_line total (clock1 w) (clock2 w) line = Returned r)
      /\ treated total ws' lines'
  | _, _ => False
  end.

End Phases.

(** ** Further inputs *)

Module Scenes.

Import Jobs Sys Fixtures.

Definition id_c : string := "00112233445566778899aabbccddeeff".

(** A third job, shown as finished. *)
Definition job_c : job := Job "clip.mkv" id_c finished "c.mkv" ["ffmpeg"] None.

(** The event loop between two handlers, with the list [l] and the worker
    encoding the first job. *)
Definition showing (l : list job) : state :=
  State l film [] [] [] None false true true (WSpawn job_a 1000) GIdle.

(** The worker has left the preamble of the first job. *)
Definition reading : state :=
  Phases.moved (WProgress job_a 1000 (skipn 3 encoder_output) 0)
               [Text "Found ffmpeg"; Text "START ENCODE VIDEO"] None busy.

(** The sample of the line that reports frame 240, read five seconds
    after the start with 1000 frames in all. *)
Definition sample_240 : Progress.sample :=
  Progress.Sample "  240 " 1000 " 46 " 24 (20480 * 100 / 24 / 1024)%float 5
                  (Progress.Seconds 15).

(** The worker waits in [get()] on an empty queue; no job is waiting. *)
Definition waiting_in_get : state :=
  State [finished_a] film [] [] [] None false false true WGet GIdle.

End Scenes.

(** ** The command line and the form it is built from *)

Module Form.

(** [check_paths] concatenates a [str] and [ffmpeg_path.absolute()], a
    [Path]. *)
Inductive operand : Type :=
| OStr (s : string)
| OPath (p : string).

(** [a + b] for a [str] [a]: concatenation with a [str]; a [Path] has no
    [__radd__], so the sum raises [TypeError]. *)
Definition str_add (a : string) (b : operand) : Py.result string :=
  match b with
  | OStr s => Returned (a ++ s)
  | OPath _ => Raised TypeError
  end.

(** [check_paths(ffmpeg_path, gui_queue)], lines 213-223, given what
    [exists()], [is_file()] and [absolute()] answer for [ffmpeg_path]. *)
Definition check_paths (found is_file : bool) (absolute : string)
    (gui_queue : list Sys.message) : Py.result (list Sys.message) :=
  if negb found || negb is_file then
    a <- str_add "MISSING ffmpeg! Is ffmpeg at " (OPath absolute) ;;
    b <- str_add a (OStr "?") ;;
    Returned (gui_queue ++ [Sys.Text b])%list
  else Returned (gui_queue ++ [Sys.Text "Found ffmpeg"])%list.

(** The entries of [params] that [format_command] and "Start encode"
    read.  [input] is [None] for the initial [""] and [Some t] for the
    [Path] put there at line 524, [t] being its [str]; the numeric entries
    are held as the text [str] gives for them. *)
Record params : Type := Params {
  input : option string;
  output : string;
  skip_audio : string;
  qp : string;
  enable_filters : string;
  drc : string;
  qmin : string;
  qmax : string;
  sharpen_mode : string;
  crop : string;
  preset : string;
  test_encode : string;
  n_frames : string;
  start_time : string;
  end_time : string
}.

(** The truth value of a [str]: all but the empty string. *)
Definition truthy (s : string) : bool :=
  match s with
  | EmptyString => false
  | String _ _ => true
  end.

(** [c.isdigit()] for an ASCII character. *)
Definition is_digit (c : ascii) : bool :=
  match Str.digit_of c with
  | Some _ => true
  | None => false
  end.

(** [''.join(i for i in s if i.isdigit())], line 621. *)
Fixpoint keep_digits (s : string) : string :=
  match s with
  | EmptyString => EmptyString
  | String c s' =>
      if is_digit c then String c (keep_digits s') else keep_digits s'
  end.


(** The texts over which [is_digit] is [str.isdigit]. *)
Definition ascii_text (s : string) : bool :=
  forallb (fun c => (nat_of_ascii c <? 128)%nat) (list_ascii_of_string s).

Definition set_n_frames (v : string) (p : params) : params :=
  Params (input p) (output p) (skip_audio p) (qp p) (enable_filters p)
         (drc p) (qmin p) (qmax p) (sharpen_mode p) (crop p) (preset p)
         (test_encode p) v (start_time p) (end_time p).

Definition set_crop (v : string) (p : params) : params :=
  Params (input p) (output p) (skip_audio p) (qp p) (enable_filters p)
         (drc p) (qmin p) (qmax p) (sharpen_mode p) v (preset p)
         (test_encode p) (n_frames p) (start_time p) (end_time p).

(** The event "-TEST_FRAMES-", lines 620-623. *)
Definition test_frames_event (v : string) (p : params) : params :=
  set_n_frames (keep_digits v) p.

(** The event "-CROP-", lines 644-648. *)
Definition crop_event (v : string) (p : params) : params :=
  set_crop (if truthy v then "crop=" ++ v else EmptyString) p.

(** The event "Autocrop", lines 720-723, for the text [autocrop()]
    returns: the most common crop found, or the empty string. *)
Definition autocrop_event (found : string) (p : params) : params :=
  set_crop ("crop=" ++ found) p.

Section Command.

(** [str(Path(s))] *)
Variable path_text : string -> string.

(** [format_command()], lines 439-459. *)
Definition format_command (p : params) : list string :=
  let input_text :=
    match input p with
    | Some t => t
    | None => EmptyString
    end in
  let output_text :=
    if truthy (output p) then path_text (output p) else EmptyString in
  let enable :=
    if truthy (sharpen_mode p) || truthy (crop p) then enable_filters p
    else EmptyString in
  let filters :=
    String.concat "," (filter truthy [sharpen_mode p; crop p]) in
  let frames :=
    if truthy (test_encode p) then n_frames p else EmptyString in
  filter truthy
    ["-i"; input_text; "-y"; "-ss"; start_time p;
     (if truthy (end_time p) then "-to" else EmptyString); end_time p;
     "-sn"; skip_audio p; "-map"; "0"; enable; filters; "-c:v";
     "libsvt_hevc"; test_encode p; frames; "-rc"; drc p; "-qmin"; qmin p;
     "-qmax"; qmax p; "-qp"; qp p; "-preset"; preset p; output_text].

(** The entry ["test_encode"] of a new job, line 705:
    [int(params["n_frames"]) if params["test_encode"] != "" else False]. *)
Definition test_encode_of (p : params) : Py.result (option Z) :=
  if truthy (test_encode p) then
    n <- Str.int_of_string (n_frames p) ;; Returned (Some n)
  else Returned None.

(** The event "Start encode", lines 693-709, for the [as_posix()] text of
    the encoder's path and the id [uuid4] draws.  An exception inside the
    [try] is printed and the handler ends. *)
Definition start_encode (ffmpeg job_id : string) (p : params) (s : Sys.state)
  : option Sys.state :=
  match input p with
  | None => Some s
  | Some _ =>
      if negb (truthy (output p)) then Some s
      else if negb (Sys.md_contains_video (Sys.video_metadata s)) then Some s
      else
        match test_encode_of p with
        | Raised _ => Some s
        | Returned test =>
            Sys.handle
              (Sys.StartEncode job_id (path_text (output p))
                               (ffmpeg :: format_command p) test) s
        end
  end.

End Command.

End Form.

Module Forms.

(** The form with a file chosen and the test encode ticked. *)
Definition form : Form.params :=
  Form.Params (Some "/videos/a.mkv") "/videos/a_new.mkv" EmptyString "20"
              "-vf" "0" "19" "21" EmptyString EmptyString "7" "-vframes"
              "1000" "00:00:00.000" EmptyString.

(** [str(Path(s))] on texts that are in normal form already. *)
Definition as_is (s : string) : string := s.

(** The event loop is idle, a video is loaded, no job yet. *)
Definition ready : Sys.state :=
  Sys.State [] Fixtures.film [] [] [] None false false true Sys.WGet
            Sys.GIdle.

End Forms.

(** ** The course of a job beside the event loop *)

Module Course.

Import Jobs Sys.

(** The actions that set [stoprequest]: "Stop encode" (line 713) and
    leaving the program (line 770). *)
Definition stops (a : action) : bool :=
  match a with
  | Gui StopEncode | Gui Exit => true
  | _ => false
  end.

(** The outside as the worker meets it along a run, step by step. *)
Fixpoint worker_worlds (t : list action) : list world :=
  match t with
  | [] => []
  | Worker w :: t' => w :: worker_worlds t'
  | Gui _ :: t' => worker_worlds t'
  end.

(** Where the worker stands, with the two flags it reads and writes
    inside a job. *)
Definition core (s : state) : worker_pc * bool * bool :=
  (worker s, stoprequest s, encode_running s).

(** What the worker has before it until the job it holds is over: the
    statements of the loop body still to come, and the lines of the
    encoder still to read. *)
Definition stage (pc : worker_pc) : nat :=
  match pc with
  | WParams _ => 6
  | WSpawn _ _ => 5
  | WPreamble _ _ _ _ => 4
  | WProgress _ _ _ _ => 3
  | WInspect _ _ => 2
  | WFinish _ _ _ => 1
  | _ => 0
  end.

Definition lines_left (pc : worker_pc) : nat :=
  match pc with
  | WPreamble _ _ out _ | WProgress _ _ out _ => List.length out
  | _ => 0
  end.

(** [pc'] is nearer to the end of the job than [pc]. *)
Definition nearer (pc' pc : worker_pc) : Prop :=
  (stage pc' < stage pc)%nat
  \/ (stage pc' = stage pc /\ (lines_left pc' < lines_left pc)%nat).

End Course.

(** ** The ids of the jobs *)

Module Draws.

Import Jobs Sys.

(** "Start encode" as lines 702-707 have it: the id drawn is appended
    without a look at the ids of the list. *)
Definition handle_drawn (a : gui_action) (s : state) : option state :=
  match a with
  | StartEncode job_id out cmd test =>
      if md_contains_video (video_metadata s) then
        Some (rebuild
                (encode_list s
                 ++ [Job (md_name (video_metadata s)) job_id waiting out cmd
                         test])%list s)
      else Some s
  | _ => handle a s
  end.

Definition gui_step_drawn (a : gui_action) (s : state) : option state :=
  match gui s with
  | GIdle => handle_drawn a s
  | _ => gui_step a s
  end.

Definition step_drawn (a : action) (s : state) : option state :=
  match a with
  | Worker w => worker_step w s
  | Gui g => gui_step_drawn g s
  end.

Fixpoint run_drawn (t : list action) (s : state) : option state :=
  match t with
  | [] => Some s
  | a :: t' =>
      match step_drawn a s with
      | Some s' => run_drawn t' s'
      | None => None
      end
  end.

(** The draw of an action is fresh: where the action is a "Start encode"
    that appends a job, its id is a [uuid4().hex] that no job of the list
    carries. *)
Definition fresh_draw (a : action) (s : state) : bool :=
  match a, gui s with
  | Gui (StartEncode job_id _ _ _), GIdle =>
      negb (md_contains_video (video_metadata s))
      || is_uuid_hex job_id && negb (uuid_in job_id (encode_list s))
  | _, _ => true
  end.

(** Every draw of a run is fresh. *)
Fixpoint fresh_draws (t : list action) (s : state) : bool :=
  match t with
  | [] => true
  | a :: t' =>
      fresh_draw a s
      && match step_drawn a s with
         | Some s' => fresh_draws t' s'
         | None => true
         end
  end.

End Draws.

Module Endings.

Import Jobs Sys Fixtures.






(** After "Pause queue" on [busy]: [_skip] is put, the GUI reads messages
    and events and a second job is added while the worker goes through
    the first job to its end. *)
Definition beside_the_job : list action :=
  [Worker calm; Gui Continue; Worker calm; Gui PollMessage; Worker calm;
   Gui PollEvent; Worker calm;
   Gui (StartEncode id_b "b.mkv" ["ffmpeg"] None); Worker calm;
   Gui Continue; Worker calm; Gui PollStatus; Worker calm].

(** The id of the first job is drawn a second time. *)
Definition same_id_twice : list action :=
  [Gui Launch; Gui (Input film);
   Gui (StartEncode id_a "a.mkv" ["ffmpeg"] None); Gui Continue;
   Gui (StartEncode id_a "b.mkv" ["ffmpeg"] None)].

End Endings.

(** * Properties *)

(** ** The string and number primitives on the inputs of the program *)

Example split_progress_line :
  Str.re_split Progress.labels
    "frame=  120 fps= 45 q=28.0 size=   10240kB time=00:00:05.00"
  = [""; "  120 "; " 45 "; "28.0 "; "   10240kB "; "00:00:05.00"].
Proof. reflexivity. Qed.

Example split_last_line :
  Str.re_split Progress.labels "frame=  9 fps=1 q=-1.0 Lsize=  12kB time=0"
  = [""; "  9 "; "1 "; "-1.0 L"; "  12kB "; "0"].
Proof. reflexivity. Qed.

Example int_of_padded : Str.int_of_string "   10240 " = Returned 10240.
Proof. reflexivity. Qed.

(** The separators 28 to 31 are white space for [str.strip] and not for
    [int]. *)
Example int_of_separator :
  Str.int_of_string (String (ascii_of_nat 28) "5") = Raised ValueError
  /\ Str.strip (String (ascii_of_nat 28) "5") = "5"
  /\ Str.int_of_string (String (ascii_of_nat 11) "5 ") = Returned 5.
Proof. repeat split; vm_compute; reflexivity. Qed.

Example int_of_signed :
  Str.int_of_string "-12" = Returned (-12)
  /\ Str.int_of_string "+1_000" = Returned 1000
  /\ Str.int_of_string "1__0" = Raised ValueError
  /\ Str.int_of_string "" = Raised ValueError
  /\ Str.int_of_string "12.5" = Raised ValueError.
Proof. repeat split; reflexivity. Qed.

Example remove_unit : Str.remove_all "kB" "   10240kB " = "   10240 ".
Proof. reflexivity. Qed.

Example truediv_exact : Num.int_truediv 880 1000 = Returned (0.88)%float.
Proof. vm_compute. reflexivity. Qed.

Example truediv_third : Num.int_truediv 1 3 = Returned (1 / 3)%float.
Proof. vm_compute. reflexivity. Qed.

Example truediv_negative : Num.int_truediv (-7) 2 = Returned (-3.5)%float.
Proof. vm_compute. reflexivity. Qed.

Example truediv_signed_zero : Num.int_truediv 0 (-5) = Returned (-0)%float.
Proof. vm_compute. reflexivity. Qed.

Example truediv_large :
  Num.int_truediv (2 ^ 80 + 1) 3 = Returned (0x1.5555555555555p+78)%float.
Proof. vm_compute. reflexivity. Qed.

Example truediv_by_zero : Num.int_truediv 5 0 = Raised ZeroDivisionError.
Proof. reflexivity. Qed.

Example trunc_seconds : Num.trunc (36.67)%float = Returned 36.
Proof. vm_compute. reflexivity. Qed.

Example round_ties :
  Num.round_half_even (2.5)%float = Returned 2
  /\ Num.round_half_even (3.5)%float = Returned 4
  /\ Num.round_half_even (-1.75)%float = Returned (-2).
Proof. vm_compute. repeat split; reflexivity. Qed.

Example last_word_of_display :
  Jobs.last_word
    (Jobs.display (Jobs.Job "a film.mkv" "0f3c" Jobs.waiting "out.mkv" [] None))
  = Returned "0f3c".
Proof. reflexivity. Qed.

Example up_moves_one_place :
  Jobs.up_scan 3 Fixtures.id_b 0
    [Fixtures.job_a; Fixtures.finished_a; Fixtures.job_b]
  = [Fixtures.job_a; Fixtures.job_b; Fixtures.finished_a].
Proof. reflexivity. Qed.

Example down_walks_to_the_end :
  Jobs.down_scan 3 Fixtures.id_b 0
    [Fixtures.job_b; Fixtures.job_a; Fixtures.finished_a]
  = [Fixtures.job_a; Fixtures.finished_a; Fixtures.job_b].
Proof. reflexivity. Qed.

Example remove_passes_over_the_next :
  Jobs.remove_scan 3 Fixtures.id_a 0
    [Fixtures.job_a; Fixtures.finished_a; Fixtures.job_b]
  = [Fixtures.finished_a; Fixtures.job_b].
Proof. reflexivity. Qed.

Example sample_after_two_lines :
  option_map Sys.status_deque
    (Sys.run (Fixtures.add_one Fixtures.film
              ++ repeat (Sys.Worker Fixtures.calm) 6) Sys.initial)
  = Some (Some (Sys.Stats
                  (Progress.Sample "  120 " 1000 " 45 " 12
                     (10240 / 1024 * 100 / 12)%float 5
                     (Progress.Seconds 36)))).
Proof. vm_compute. reflexivity. Qed.

(** ** The statistics of a progress line *)

Module ProgressFacts.

Import Progress.
Open Scope float_scope.

Lemma bind_not_raised {A B : Type} (r : Py.result A) (k : A -> Py.result B) (e : Py.exn) :
  r <> Raised e -> (forall a, k a <> Raised e) -> (x <- r ;; k x) <> Raised e.
Proof.
  intros Hr Hk. destruct r as [a|e']; unfold Py.bind; [apply Hk|].
  intro H. apply Hr. congruence.
Qed.

(** A float above zero is not zero. *)
Lemma positive_not_zero (x : float) : (0 <? x) = true -> is_zero x = false.
Proof.
  unfold is_zero. rewrite ltb_spec, eqb_spec.
  replace (Prim2SF 0) with (S754_zero false) by reflexivity.
  replace (Prim2SF zero) with (S754_zero false) by reflexivity.
  destruct (Prim2SF x) as [s|s| |s m e]; cbn; try discriminate;
    destruct s; cbn; congruence.
Qed.

Lemma rate_divisor_nonzero (done_frames : Z) : rate_divisor done_frames <> 0%Z.
Proof.
  unfold rate_divisor. destruct (Z.eqb_spec done_frames 0); lia.
Qed.

Lemma of_int_no_zero_division (n : Z) : Num.of_int n <> Raised ZeroDivisionError.
Proof.
  unfold Num.of_int, Num.round_to_float.
  destruct (is_infinity _); discriminate.
Qed.

Lemma float_div_int_safe (x : float) (n : Z) :
  n <> 0%Z -> Num.float_div_int x n <> Raised ZeroDivisionError.
Proof.
  intro Hn. unfold Num.float_div_int.
  apply bind_not_raised; [apply of_int_no_zero_division|].
  intro y. destruct (Z.eqb_spec n 0); [contradiction | discriminate].
Qed.

Lemma int_mul_float_safe (n : Z) (x : float) :
  Num.int_mul_float n x <> Raised ZeroDivisionError.
Proof.
  unfold Num.int_mul_float.
  apply bind_not_raised; [apply of_int_no_zero_division | discriminate].
Qed.

Lemma int_truediv_safe (a b : Z) :
  b <> 0%Z -> Num.int_truediv a b <> Raised ZeroDivisionError.
Proof.
  intro Hb. unfold Num.int_truediv.
  destruct (Z.eqb_spec b 0); [contradiction|].
  unfold Num.round_to_float. destruct (is_infinity _); discriminate.
Qed.

Lemma remaining_seconds_safe (total_frames done_frames : Z) (now : float) :
  remaining_seconds total_frames done_frames now <> Raised ZeroDivisionError.
Proof.
  unfold remaining_seconds.
  apply bind_not_raised; [apply int_mul_float_safe|].
  intro p. apply float_div_int_safe, rate_divisor_nonzero.
Qed.

Lemma trunc_safe (x : float) : Num.trunc x <> Raised ZeroDivisionError.
Proof. unfold Num.trunc. destruct (Prim2SF x); discriminate. Qed.

Lemma round_half_even_safe (x : float) :
  Num.round_half_even x <> Raised ZeroDivisionError.
Proof. unfold Num.round_half_even. destruct (Prim2SF x); discriminate. Qed.

Lemma format_seconds_safe (x : float) :
  format_seconds x <> Raised ZeroDivisionError.
Proof.
  unfold format_seconds.
  destruct (x <? 60).
  - apply bind_not_raised; [apply trunc_safe | discriminate].
  - destruct (x <? 3600); [|discriminate].
    apply bind_not_raised; [apply round_half_even_safe | discriminate].
Qed.

Lemma eta_text_safe (total_frames done_frames : Z) (now : float) :
  eta_text total_frames done_frames now <> Raised ZeroDivisionError.
Proof.
  unfold eta_text.
  apply bind_not_raised; [apply remaining_seconds_safe|].
  intro; apply format_seconds_safe.
Qed.

Lemma int_of_string_safe (s : string) :
  Str.int_of_string s <> Raised ZeroDivisionError.
Proof.
  unfold Str.int_of_string. cbv zeta.
  destruct (Str.max_str_digits <? _)%Z; [discriminate|].
  destruct (Str.int_rstrip (Str.int_lstrip s)) as [|c r];
    [cbn; discriminate|].
  destruct c as [[] [] [] [] [] [] [] []];
    destruct (Str.digits_go 0 false _); try discriminate;
    destruct (Str.digits_go 0 false r); discriminate.
Qed.

Lemma index_safe (split : list string) (i : nat) :
  index split i <> Raised ZeroDivisionError.
Proof. unfold index. destruct (nth_error split i); discriminate. Qed.

Lemma estimate_safe (size : string) (p : float) :
  (0 <? p) = true -> estimate size p <> Raised ZeroDivisionError.
Proof.
  intro Hp. unfold estimate.
  apply bind_not_raised; [apply int_of_string_safe|].
  intro cur. apply bind_not_raised.
  - unfold Num.int_div_float.
    apply bind_not_raised; [apply of_int_no_zero_division|].
    intro y. rewrite (positive_not_zero p Hp). discriminate.
  - intro q. apply float_div_int_safe. lia.
Qed.

(** No progress line makes the statistics divide by zero. *)
Lemma process_line_no_zero_division (total_frames : Z) (now1 now2 : float)
    (line : string) :
  process_line total_frames now1 now2 line <> Raised ZeroDivisionError.
Proof.
  unfold process_line.
  apply bind_not_raised; [apply index_safe|]. intro frame.
  apply bind_not_raised; [apply int_of_string_safe|]. intro done_frames.
  apply bind_not_raised.
  - destruct (Z.eqb_spec total_frames 0); [discriminate|].
    apply bind_not_raised.
    + unfold percent. apply bind_not_raised;
        [apply int_truediv_safe; assumption | discriminate].
    + intro p. apply bind_not_raised; [apply eta_text_safe | discriminate].
  - intros [p t].
    apply bind_not_raised.
    + destruct (0 <? p) eqn:Hp; [|discriminate].
      apply bind_not_raised; [apply index_safe|].
      intro size. apply estimate_safe, Hp.
    + intro est. apply bind_not_raised; [apply index_safe | discriminate].
Qed.

End ProgressFacts.

(** ** The example line of the specification and the rate at frame zero *)

Module LineFacts.

Import Jobs Progress Sys Fixtures.
Open Scope float_scope.

Lemma example_line_equation (now1 now2 : float) :
  process_line 1000 now1 now2 example_line
  = (t <- eta_text 1000 120 now1 ;;
     Returned (120%Z, Sample "  120 " 1000 " 45 " 12
                             (10240 / 1024 * 100 / 12) now2 t)).
Proof.
  unfold process_line.
  replace (Str.re_split labels example_line)
    with [""; "  120 "; " 45 "; "28.0 "; "   10240kB "; "00:00:05.00"]
    by (vm_compute; reflexivity).
  cbn [index nth_error Py.bind].
  replace (Str.int_of_string "  120 ") with (@Returned Z 120%Z)
    by (vm_compute; reflexivity).
  cbn [Py.bind Z.eqb].
  replace (percent 1000 120) with (Returned 12) by (vm_compute; reflexivity).
  cbn [Py.bind].
  destruct (eta_text 1000 120 now1) as [t|e]; cbn [Py.bind]; [|reflexivity].
  replace (0 <? 12) with true by (vm_compute; reflexivity).
  replace (estimate "   10240kB " 12)
    with (Returned (10240 / 1024 * 100 / 12)) by (vm_compute; reflexivity).
  reflexivity.
Qed.

Lemma eta_at_zero_frames (total_frames : Z) (now : float) :
  remaining_seconds total_frames 0 now
  = (p <- Num.int_mul_float total_frames now ;; Num.float_div_int p 1).
Proof.
  unfold remaining_seconds, rate_divisor. rewrite Z.sub_0_r. reflexivity.
Qed.

Lemma zero_line_equation (now1 now2 : float) :
  process_line 1000 now1 now2 zero_line
  = (t <- format_seconds (1000 * now1 / 1) ;;
     Returned (0%Z, Sample "    0 " 1000 "0.0 " 0 0 now2 t)).
Proof.
  unfold process_line.
  replace (Str.re_split labels zero_line)
    with [""; "    0 "; "0.0 "; "0.0 "; "       0kB "; "00:00:00.00"]
    by (vm_compute; reflexivity).
  cbn [index nth_error Py.bind].
  replace (Str.int_of_string "    0 ") with (@Returned Z 0%Z)
    by (vm_compute; reflexivity).
  cbn [Py.bind Z.eqb].
  replace (percent 1000 0) with (Returned 0) by (vm_compute; reflexivity).
  cbn [Py.bind].
  unfold eta_text. rewrite eta_at_zero_frames.
  unfold Num.int_mul_float, Num.float_div_int.
  replace (Num.of_int 1000) with (Returned 1000) by (vm_compute; reflexivity).
  replace (Num.of_int 1) with (Returned 1) by (vm_compute; reflexivity).
  cbn [Py.bind Z.eqb].
  destruct (format_seconds (1000 * now1 / 1)) as [t|e]; cbn [Py.bind];
    [|reflexivity].
  replace (0 <? 0) with false by (vm_compute; reflexivity).
  reflexivity.
Qed.

(** The worker thread never ends on a division by zero. *)
Lemma worker_never_divides_by_zero (w : world) (s : state) :
  option_map worker (worker_step w s) <> Some (WDead ZeroDivisionError).
Proof.
  unfold worker_step.
  destruct (worker s) as [ | | |j|j total|j total out msg|j total out d|j d
                          |j d r| |e]; cbv beta iota zeta.
  - destruct (encode_queue_active s); cbn; discriminate.
  - destruct (encode_queue_active s); cbn; discriminate.
  - destruct (encode_queue s) as [|[j| |] rest]; cbn; discriminate.
  - unfold total_frames_of, py_int.
    destruct (test_encode j) as [n|]; [destruct (n =? 0)%Z|];
      try (cbn; discriminate);
      (destruct (md_frame_count (video_metadata s)) as [|n'|str];
       [cbn; discriminate | cbn; discriminate |]);
      (destruct (Str.int_of_string str) as [v|e] eqn:E; cbn; [discriminate|];
       intro H; injection H as ->;
       exact (ProgressFacts.int_of_string_safe str E)).
  - destruct (spawn w); cbn; discriminate.
  - destruct out as [|line rest]; [cbn; discriminate|].
    destruct (is_progress_line line); cbn; discriminate.
  - destruct (stoprequest s); [cbn; discriminate|].
    destruct out as [|line rest]; [cbn; discriminate|].
    destruct (is_progress_line line); [|cbn; discriminate].
    destruct (process_line total (clock1 w) (clock2 w) line) as [[d' smp]|e]
      eqn:E; cbn; [discriminate|].
    intro H; injection H as ->.
    exact (ProgressFacts.process_line_no_zero_division _ _ _ _ E).
  - destruct (inspect w); cbn; discriminate.
  - discriminate.
  - discriminate.
  - discriminate.
Qed.

End LineFacts.

(** C4: the progress parser on the line
    [frame=  120 fps= 45 q=28.0 size=   10240kB time=00:00:05.00] with
    1000 total frames gives 120 done frames, a percentage of exactly 12.0,
    which is [100 - ((1000 - 120) / 1000 * 100)], and a size estimate of
    [(10240 / 1024 * 100) / 12], between 83.33 and 83.34 MiB.  This holds
    for every reading of the clock; five seconds after the start the
    sample is returned with "36 seconds" left. *)
Theorem example_line_sample :
  (forall now1 now2 : float,
     Progress.process_line 1000 now1 now2 Fixtures.example_line
     = (t <- Progress.eta_text 1000 120 now1 ;;
        Returned (120, Progress.Sample "  120 " 1000 " 45 " 12
                         (10240 / 1024 * 100 / 12)%float now2 t)))
  /\ Progress.percent 1000 120 = Returned 12%float
  /\ (83.33 <? 10240 / 1024 * 100 / 12)%float = true
  /\ (10240 / 1024 * 100 / 12 <? 83.34)%float = true
  /\ Progress.process_line 1000 5 5 Fixtures.example_line
     = Returned (120, Progress.Sample "  120 " 1000 " 45 " 12
                        (10240 / 1024 * 100 / 12)%float 5
                        (Progress.Seconds 36)).
Proof.
  split; [exact LineFacts.example_line_equation|].
  repeat split; vm_compute; reflexivity.
Qed.

(** C8: with zero frames done the rate is taken over a divisor of 1, not
    over [done_frames]: the seconds left are [(total - 0) * elapsed / 1].
    The divisor is never zero, so neither the extrapolation nor the whole
    treatment of a progress line raises [ZeroDivisionError], and the worker
    thread never ends on one; the line that reports frame 0 gives a
    sample. *)
Theorem rate_at_zero_frames :
  Progress.rate_divisor 0 = 1
  /\ (forall done_frames : Z, Progress.rate_divisor done_frames <> 0)
  /\ (forall (total_frames : Z) (now : float),
        Progress.remaining_seconds total_frames 0 now
        = (p <- Num.int_mul_float total_frames now ;; Num.float_div_int p 1))
  /\ (forall (total_frames done_frames : Z) (now : float),
        Progress.remaining_seconds total_frames done_frames now
        <> Raised ZeroDivisionError)
  /\ (forall (total_frames : Z) (now1 now2 : float) (line : string),
        Progress.process_line total_frames now1 now2 line
        <> Raised ZeroDivisionError)
  /\ (forall (w : Sys.world) (s : Sys.state),
        option_map Sys.worker (Sys.worker_step w s)
        <> Some (Sys.WDead ZeroDivisionError))
  /\ (forall now1 now2 : float,
        Progress.process_line 1000 now1 now2 Fixtures.zero_line
        = (t <- Progress.format_seconds (1000 * now1 / 1)%float ;;
           Returned (0, Progress.Sample "    0 " 1000 "0.0 " 0 0 now2 t)))
  /\ Progress.process_line 1000 2 2 Fixtures.zero_line
     = Returned (0, Progress.Sample "    0 " 1000 "0.0 " 0 0 2
                      (Progress.Minutes 33)).
Proof.
  split; [reflexivity|].
  split; [exact ProgressFacts.rate_divisor_nonzero|].
  split; [exact LineFacts.eta_at_zero_frames|].
  split; [exact ProgressFacts.remaining_seconds_safe|].
  split; [exact ProgressFacts.process_line_no_zero_division|].
  split; [exact LineFacts.worker_never_divides_by_zero|].
  split; [exact LineFacts.zero_line_equation|].
  vm_compute; reflexivity.
Qed.

(** ** The worker on one job *)

Module WorkerFacts.

Import Jobs Progress Sys Fixtures.
Open Scope float_scope.

Lemma worker_messages (w : world) (s : state) :
  match worker_step w s with
  | Some s' =>
      gui_queue s' = gui_queue s
      \/ exists m, gui_queue s' = (gui_queue s ++ [m])%list /\ worker_message m
  | None => True
  end.
Proof.
  unfold worker_step, worker_message.
  destruct (worker s) as [ | | |j|j total|j total out msg|j total out d|j d
                          |j d r| |e]; cbv beta iota zeta.
  - left; reflexivity.
  - destruct (encode_queue_active s); [left; reflexivity | exact I].
  - destruct (encode_queue s) as [|it rest]; [exact I | left; reflexivity].
  - destruct (total_frames_of _ _); left; reflexivity.
  - destruct (spawn w); left; reflexivity.
  - destruct out as [|line rest];
      [right; eexists; split; [reflexivity | left; reflexivity]|].
    destruct (is_progress_line line);
      [right; eexists; split; [reflexivity | left; reflexivity]
      | left; reflexivity].
  - destruct (stoprequest s);
      [right; eexists; split; [reflexivity | right; left; reflexivity]|].
    destruct out as [|line rest]; [left; reflexivity|].
    destruct (is_progress_line line); [|left; reflexivity].
    destruct (process_line _ _ _ _) as [[d' smp]|e]; left; reflexivity.
  - destruct (inspect w); left; reflexivity.
  - right; eexists; split; [reflexivity|].
    right; right; do 4 eexists; reflexivity.
  - exact I.
  - exact I.
Qed.

(** The treatment of a line whose size field is no number. *)
Lemma unparsable_size (total_frames : Z) (now1 now2 : float)
    (line frame size fps : string) (done_frames : Z) (e : Py.exn) :
  index (Str.re_split labels line) 1 = Returned frame ->
  Str.int_of_string frame = Returned done_frames ->
  index (Str.re_split labels line) 4 = Returned size ->
  Str.int_of_string (Str.remove_all "kB" size) = Raised e ->
  index (Str.re_split labels line) 2 = Returned fps ->
  (total_frames = 0%Z ->
   process_line total_frames now1 now2 line
   = Returned (done_frames, Sample frame 0 fps 0 0 now2 NoEta))
  /\ (forall p t,
        total_frames <> 0%Z ->
        percent total_frames done_frames = Returned p ->
        eta_text total_frames done_frames now1 = Returned t ->
        process_line total_frames now1 now2 line
        = if 0 <? p then Raised e
          else Returned (done_frames,
                         Sample frame total_frames fps p 0 now2 t)).
Proof.
  intros Hframe Hdone Hsize Hbad Hfps. split.
  - intros ->. unfold process_line.
    rewrite Hframe; cbn [Py.bind]. rewrite Hdone; cbn [Py.bind Z.eqb].
    replace (0 <? 0) with false by (vm_compute; reflexivity).
    cbn [Py.bind]. rewrite Hfps. reflexivity.
  - intros p t Htotal Hp Ht. unfold process_line.
    rewrite Hframe; cbn [Py.bind]. rewrite Hdone; cbn [Py.bind].
    destruct (Z.eqb_spec total_frames 0) as [|_]; [contradiction|].
    rewrite Hp; cbn [Py.bind]. rewrite Ht; cbn [Py.bind].
    destruct (0 <? p).
    + rewrite Hsize; cbn [Py.bind]. unfold estimate. rewrite Hbad. reflexivity.
    + cbn [Py.bind]. rewrite Hfps. reflexivity.
Qed.

End WorkerFacts.

(** C5 (the code departs from it): the worker reads the output up to the
    first progress line and gathers the stripped lines in [msg], but what
    it puts on [gui_queue] when the preamble ends is the fixed text
    [START ENCODE VIDEO]; the gathered text is dropped.  On a run with two
    banner lines [msg] holds both when the first progress line arrives,
    and the queue of the GUI then receives the fixed text alone; no step
    of the worker ever puts anything but one of its fixed texts or the
    closing report of a job. *)
Theorem preamble_text_is_dropped :
  option_map Sys.worker
    (Sys.run (Fixtures.add_one Fixtures.film
              ++ repeat (Sys.Worker Fixtures.calm) 4) Sys.initial)
  = Some (Sys.WPreamble Fixtures.job_a 1000
            (skipn 2 Fixtures.encoder_output)
            ("ffmpeg version 4.2.1" ++ Sys.newline
             ++ "Stream mapping:" ++ Sys.newline))
  /\ option_map Sys.gui_queue
       (Sys.run (Fixtures.add_one Fixtures.film
                 ++ repeat (Sys.Worker Fixtures.calm) 4) Sys.initial)
     = Some [Sys.Text "Found ffmpeg"]
  /\ option_map Sys.worker
       (Sys.run (Fixtures.add_one Fixtures.film
                 ++ repeat (Sys.Worker Fixtures.calm) 5) Sys.initial)
     = Some (Sys.WProgress Fixtures.job_a 1000
               (skipn 3 Fixtures.encoder_output) 0)
  /\ option_map Sys.gui_queue
       (Sys.run (Fixtures.add_one Fixtures.film
                 ++ repeat (Sys.Worker Fixtures.calm) 5) Sys.initial)
     = Some [Sys.Text "Found ffmpeg"; Sys.Text "START ENCODE VIDEO"]
  /\ (forall (w : Sys.world) (s : Sys.state),
        match Sys.worker_step w s with
        | Some s' =>
            Sys.gui_queue s' = Sys.gui_queue s
            \/ exists m, Sys.gui_queue s' = (Sys.gui_queue s ++ [m])%list
                         /\ Sys.worker_message m
        | None => True
        end).
Proof.
  split; [vm_compute; reflexivity|].
  split; [vm_compute; reflexivity|].
  split; [vm_compute; reflexivity|].
  split; [vm_compute; reflexivity|].
  exact WorkerFacts.worker_messages.
Qed.

(** C6 (the code departs from it): for a job with no test-encode limit and
    no frame count in the metadata, line 116 evaluates [int(None)]: the
    worker thread ends on [TypeError] before it starts the encoder, no
    event and no sample is published.  Where the count is given as zero,
    the sample of a progress line carries the defaults [0.0] for the
    percentage and the size estimate instead of leaving them out. *)
Theorem unknown_total_frames :
  Sys.total_frames_of None VNone = Raised TypeError
  /\ Sys.total_frames_of (Some 0) VNone = Raised TypeError
  /\ option_map Sys.worker
       (Sys.run (Fixtures.add_one Fixtures.film_without_count) Sys.initial)
     = Some (Sys.WParams Fixtures.job_a)
  /\ option_map (fun s => (Sys.worker s, Sys.encode_event s, Sys.status_deque s))
       (Sys.run (Fixtures.add_one Fixtures.film_without_count
                 ++ [Sys.Worker Fixtures.calm]) Sys.initial)
     = Some (Sys.WDead TypeError, [], None)
  /\ (forall now1 now2 : float,
        Progress.process_line 0 now1 now2 Fixtures.example_line
        = Returned (120, Progress.Sample "  120 " 0 " 45 " 0 0 now2
                           Progress.NoEta)).
Proof.
  split; [reflexivity|]. split; [reflexivity|].
  split; [vm_compute; reflexivity|].
  split; [vm_compute; reflexivity|].
  intros now1 now2. vm_compute. reflexivity.
Qed.

(** C7, as the code has it: a size field that is no number is tolerated
    only where it is not read.  With no total (zero) the line gives a
    sample whose percentage and size estimate are both [0.0]; with a total
    the line gives a sample with a size estimate of [0.0] when the
    percentage is not above zero, and when it is above zero the exception
    of [int] leaves the treatment of the line. *)
Theorem unparsable_size_field :
  forall (total_frames : Z) (now1 now2 : float)
         (line frame size fps : string) (done_frames : Z) (e : Py.exn),
    Progress.index (Str.re_split Progress.labels line) 1 = Returned frame ->
    Str.int_of_string frame = Returned done_frames ->
    Progress.index (Str.re_split Progress.labels line) 4 = Returned size ->
    Str.int_of_string (Str.remove_all "kB" size) = Raised e ->
    Progress.index (Str.re_split Progress.labels line) 2 = Returned fps ->
    (total_frames = 0 ->
     Progress.process_line total_frames now1 now2 line
     = Returned (done_frames,
                 Progress.Sample frame 0 fps 0 0 now2 Progress.NoEta))
    /\ (forall p t,
          total_frames <> 0 ->
          Progress.percent total_frames done_frames = Returned p ->
          Progress.eta_text total_frames done_frames now1 = Returned t ->
          Progress.process_line total_frames now1 now2 line
          = if (0 <? p)%float then Raised e
            else Returned (done_frames,
                           Progress.Sample frame total_frames fps p 0 now2 t)).
Proof. exact WorkerFacts.unparsable_size. Qed.

Lemma unparsable_size_field_witness :
  Progress.process_line 0 5 5 Fixtures.no_size_line
  = Returned (120, Progress.Sample "  120 " 0 " 45 " 0 0 5 Progress.NoEta)
  /\ Progress.process_line 1000 5 5 Fixtures.no_size_line = Raised ValueError.
Proof.
  destruct (unparsable_size_field 0 5 5 Fixtures.no_size_line
              "  120 " "N/A " " 45 " 120 ValueError
              eq_refl eq_refl eq_refl eq_refl eq_refl) as [H0 _].
  destruct (unparsable_size_field 1000 5 5 Fixtures.no_size_line
              "  120 " "N/A " " 45 " 120 ValueError
              eq_refl eq_refl eq_refl eq_refl eq_refl) as [_ H1].
  split.
  - exact (H0 eq_refl).
  - refine (H1 12%float (Progress.Seconds 36) _ _ _).
    + discriminate.
    + vm_compute; reflexivity.
    + vm_compute; reflexivity.
Defined.

(** C7, the statement of the specification fails: on a progress line with
    [size=N/A], 1000 total frames and 120 frames done, the size field is
    the only one that does not parse, and the treatment of the line raises
    [ValueError]; the worker thread ends on it and publishes no sample. *)
Lemma unparsable_size_raises :
  Progress.is_progress_line Fixtures.no_size_line = true
  /\ Progress.index (Str.re_split Progress.labels Fixtures.no_size_line) 4
     = Returned "N/A "
  /\ Str.int_of_string (Str.remove_all "kB" "N/A ") = Raised ValueError
  /\ Progress.process_line 1000 5 5 Fixtures.no_size_line = Raised ValueError
  /\ option_map (fun s => (Sys.worker s, Sys.status_deque s))
       (Sys.worker_step Fixtures.calm
          (Sys.State [] Fixtures.film [] [] [] None false true true
             (Sys.WProgress Fixtures.job_a 1000 [Fixtures.no_size_line] 0)
             Sys.GIdle))
     = Some (Sys.WDead ValueError, None).
Proof. repeat split; vm_compute; reflexivity. Qed.

(** ** The job list under the handlers of the queue buttons *)

Module JobsFacts.

Import Jobs.

Lemma append_assoc (a b c : string) : ((a ++ b) ++ c = a ++ (b ++ c))%string.
Proof. induction a as [|x a IH]; cbn; [reflexivity | now rewrite IH]. Qed.

Lemma append_nil_r (a : string) : (a ++ "" = a)%string.
Proof. induction a as [|x a IH]; cbn; [reflexivity | now rewrite IH]. Qed.

Lemma hex_not_space (c : ascii) : Sys.is_hex c = true -> Str.is_space c = false.
Proof.
  destruct c as [[] [] [] [] [] [] [] []]; cbn; intro H;
    first [reflexivity | discriminate H].
Qed.

Lemma uuid_hex_no_space (u : string) :
  Sys.is_uuid_hex u = true -> no_space u /\ u <> EmptyString.
Proof.
  unfold Sys.is_uuid_hex, no_space. intro H.
  apply andb_prop in H as [Hlen Hall]. split.
  - rewrite forallb_forall in Hall. apply Forall_forall.
    intros c Hc. apply hex_not_space, Hall, Hc.
  - intros ->. discriminate Hlen.
Qed.

Lemma words_go_word (u cur : string) :
  no_space u -> (cur ++ u)%string <> EmptyString ->
  words_go cur u = [(cur ++ u)%string].
Proof.
  unfold no_space. revert cur.
  induction u as [|c u IH]; intros cur Hns Hne; cbn.
  - rewrite append_nil_r in *. destruct cur; [contradiction | reflexivity].
  - cbn in Hns. inversion Hns as [|? ? Hc Hu]; subst. rewrite Hc.
    rewrite IH; [|assumption|].
    + now rewrite append_assoc.
    + rewrite append_assoc. exact Hne.
Qed.

Lemma words_go_last (u a cur : string) :
  no_space u -> u <> EmptyString ->
  exists r, rev (words_go cur (a ++ String " " u)) = u :: r.
Proof.
  intros Hns Hne. revert cur.
  induction a as [|c a IH]; intro cur.
  - cbn [append words_go]. replace (Str.is_space " ") with true by reflexivity.
    rewrite (words_go_word u EmptyString Hns Hne). cbn [append].
    destruct cur; cbn; eauto.
  - cbn [append words_go]. destruct (Str.is_space c).
    + destruct cur.
      * apply IH.
      * destruct (IH EmptyString) as [r Hr]. cbn [rev]. rewrite Hr.
        cbn. eauto.
    + apply IH.
Qed.

(** The last word of the line shown for a job is its id. *)
Lemma last_word_display (j : job) :
  Sys.is_uuid_hex (uuid j) = true -> last_word (display j) = Returned (uuid j).
Proof.
  intro H. destruct (uuid_hex_no_space _ H) as [Hns Hne].
  unfold last_word, words, display.
  replace (status j ++ " | " ++ title j ++ " - " ++ uuid j)%string
    with ((status j ++ " | " ++ title j ++ " -") ++ String " " (uuid j))%string.
  - destruct (words_go_last (uuid j) (status j ++ " | " ++ title j ++ " -")
                EmptyString Hns Hne) as [r ->].
    reflexivity.
  - rewrite !append_assoc. reflexivity.
Qed.

(** *** [pop] and [insert] *)

Local Open Scope list_scope.

Lemma pop_split (l : list job) (i : nat) (j : job) :
  nth_error l i = Some j -> l = firstn i l ++ j :: skipn (S i) l
                            /\ pop i l = firstn i l ++ skipn (S i) l.
Proof.
  revert i. induction l as [|x l IH]; intros [|i] H; cbn in *;
    try discriminate.
  - injection H as ->. auto.
  - destruct (IH i H) as [H1 H2]. rewrite <- H1, H2. auto.
Qed.

Lemma pop_In (l : list job) (i : nat) (x : job) : In x (pop i l) -> In x l.
Proof.
  revert i. induction l as [|y l IH]; intros [|i]; cbn; auto.
  intros [->|H]; eauto.
Qed.

Lemma pop_keeps (l : list job) (i : nat) (j x : job) :
  nth_error l i = Some j -> In x l -> x <> j -> In x (pop i l).
Proof.
  revert i. induction l as [|y l IH]; intros [|i] Hn Hx Hne; cbn in *;
    try discriminate.
  - injection Hn as ->. destruct Hx as [->|Hx]; [contradiction | exact Hx].
  - destruct Hx as [->|Hx]; [left; reflexivity | right; eauto].
Qed.

Lemma pop_length (l : list job) (i : nat) :
  (List.length (pop i l) <= List.length l)%nat.
Proof.
  revert i. induction l as [|y l IH]; intros [|i]; cbn; auto.
  specialize (IH i). lia.
Qed.

Lemma pop_NoDup (l : list job) (i : nat) :
  NoDup (map uuid l) -> NoDup (map uuid (pop i l)).
Proof.
  revert i. induction l as [|y l IH]; intros [|i] H; cbn in *; auto.
  - now inversion H.
  - inversion H as [|? ? Hy Hl]; subst. constructor; [|auto].
    intro Hin. apply Hy. apply in_map_iff in Hin as [x [Hx Hin]].
    apply in_map_iff. exists x. split; [exact Hx | eapply pop_In, Hin].
Qed.

Lemma insert_In (l : list job) (i : nat) (x y : job) :
  In y (insert i x l) <-> y = x \/ In y l.
Proof.
  revert i. induction l as [|z l IH]; intros [|i]; cbn.
  - intuition congruence.
  - intuition congruence.
  - intuition congruence.
  - rewrite IH. intuition congruence.
Qed.

Lemma insert_NoDup (l : list job) (i : nat) (x : job) :
  ~ In (uuid x) (map uuid l) -> NoDup (map uuid l) ->
  NoDup (map uuid (insert i x l)).
Proof.
  revert i. induction l as [|z l IH]; intros [|i] Hx Hl; cbn in *.
  - constructor; auto.
  - constructor; auto.
  - constructor; auto.
  - inversion Hl as [|? ? Hz Hl']; subst. constructor.
    + intro Hin. apply in_map_iff in Hin as [y [Hy Hin]].
      apply insert_In in Hin as [->|Hin].
      * apply Hx. left. congruence.
      * apply Hz. apply in_map_iff. eauto.
    + apply IH; auto.
Qed.

Lemma pop_removes_uuid (l : list job) (i : nat) (j : job) :
  NoDup (map uuid l) -> nth_error l i = Some j ->
  ~ In (uuid j) (map uuid (pop i l)).
Proof.
  revert i. induction l as [|y l IH]; intros [|i] Hl Hn; cbn in *;
    try discriminate; inversion Hl as [|? ? Hy Hl']; subst.
  - injection Hn as ->. exact Hy.
  - intros [Heq|Hin].
    + apply Hy. rewrite Heq. apply in_map, (nth_error_In _ _ Hn).
    + exact (IH i Hl' Hn Hin).
Qed.

(** Moving the job at [i] to another place keeps the jobs and their ids. *)
Lemma move_In (l : list job) (i k : nat) (j x : job) :
  nth_error l i = Some j -> (In x (insert k j (pop i l)) <-> In x l).
Proof.
  intro Hn. rewrite insert_In. split.
  - intros [->|H]; [eapply nth_error_In, Hn | eapply pop_In, H].
  - intro H. destruct (pop_split l i j Hn) as [Hl Hp].
    rewrite Hp. rewrite Hl in H.
    rewrite in_app_iff in *. cbn in H. intuition.
Qed.

Lemma move_NoDup (l : list job) (i k : nat) (j : job) :
  nth_error l i = Some j -> NoDup (map uuid l) ->
  NoDup (map uuid (insert k j (pop i l))).
Proof.
  intros Hn Hl. apply insert_NoDup.
  - apply pop_removes_uuid; assumption.
  - apply pop_NoDup, Hl.
Qed.

(** *** The three scans *)

Lemma remove_scan_In (fuel : nat) (job_id : string) (i : nat) (l : list job)
    (x : job) :
  In x (remove_scan fuel job_id i l) -> In x l.
Proof.
  revert i l. induction fuel as [|fuel IH]; intros i l; cbn; [auto|].
  destruct (nth_error l i) as [j|]; [|auto].
  destruct (_ && _); [|apply IH].
  intro H. eapply pop_In, IH, H.
Qed.

Lemma remove_scan_NoDup (fuel : nat) (job_id : string) (i : nat)
    (l : list job) :
  NoDup (map uuid l) -> NoDup (map uuid (remove_scan fuel job_id i l)).
Proof.
  revert i l. induction fuel as [|fuel IH]; intros i l Hl; cbn; [auto|].
  destruct (nth_error l i) as [j|]; [|auto].
  destruct (_ && _); apply IH; [apply pop_NoDup|]; exact Hl.
Qed.

Lemma remove_scan_keeps_started (fuel : nat) (job_id : string) (i : nat)
    (l : list job) (x : job) :
  In x l -> status x = started -> In x (remove_scan fuel job_id i l).
Proof.
  revert i l. induction fuel as [|fuel IH]; intros i l Hx Hst; cbn; [auto|].
  destruct (nth_error l i) as [j|] eqn:Hn; [|auto].
  destruct (_ && _) eqn:Hm; [|apply IH; auto].
  apply IH; [|exact Hst]. apply (pop_keeps l i j x Hn Hx).
  intros ->. apply andb_prop in Hm as [_ Hm].
  rewrite Hst in Hm. discriminate Hm.
Qed.

Lemma filter_all (p : job -> bool) (l : list job) :
  (forall x, In x l -> p x = true) -> filter p l = l.
Proof.
  induction l as [|y l IH]; cbn; intro H; [reflexivity|].
  rewrite (H y (or_introl eq_refl)). f_equal. apply IH. auto.
Qed.

Lemma kept_other (job_id : string) (l : list job) :
  ~ In job_id (map uuid l) -> filter (kept job_id) l = l.
Proof.
  intro H. apply filter_all. intros x Hx. unfold kept.
  destruct (String.eqb_spec (uuid x) job_id) as [<-|]; [|reflexivity].
  exfalso. apply H, in_map, Hx.
Qed.

Lemma skipn_nth (l : list job) (i : nat) (j : job) :
  nth_error l i = Some j -> skipn i l = j :: skipn (S i) l.
Proof.
  revert i. induction l as [|y l IH]; intros [|i] H; cbn in *;
    try discriminate.
  - now injection H as ->.
  - apply IH, H.
Qed.

Lemma firstn_nth (l : list job) (i : nat) (j : job) :
  nth_error l i = Some j -> firstn (S i) l = firstn i l ++ [j].
Proof.
  revert i. induction l as [|y l IH]; intros [|i] H; cbn in *;
    try discriminate.
  - now injection H as ->.
  - f_equal. apply IH, H.
Qed.

Lemma remove_scan_filter (fuel : nat) (job_id : string) (i : nat)
    (l : list job) :
  NoDup (map uuid l) -> (List.length l <= i + fuel)%nat ->
  remove_scan fuel job_id i l = firstn i l ++ filter (kept job_id) (skipn i l).
Proof.
  revert i l. induction fuel as [|fuel IH]; intros i l Hl Hlen; cbn.
  - rewrite skipn_all2, firstn_all2 by lia. now rewrite app_nil_r.
  - destruct (nth_error l i) as [j|] eqn:Hn.
    + destruct (pop_split l i j Hn) as [Hsplit Hpop].
      rewrite (skipn_nth l i j Hn). cbn [filter].
      assert (Hk : kept job_id j
                   = negb (String.eqb (uuid j) job_id
                           && negb (String.eqb (status j) started)))
        by reflexivity.
      rewrite Hk.
      destruct (String.eqb (uuid j) job_id && negb (String.eqb (status j) started))
        eqn:Hm; cbn [negb].
      * apply andb_prop in Hm as [Hid _]. apply String.eqb_eq in Hid.
        pose proof (pop_removes_uuid l i j Hl Hn) as Hfresh.
        rewrite Hid in Hfresh.
        rewrite IH; [|apply pop_NoDup, Hl | pose proof (pop_length l i); lia].
        rewrite (kept_other job_id (skipn (S i) l)).
        -- rewrite kept_other.
           ++ rewrite firstn_skipn. exact Hpop.
           ++ intro Hin. apply Hfresh.
              apply in_map_iff in Hin as [x [Hx Hin]].
              apply in_map_iff. exists x. split; [exact Hx|].
              rewrite <- (firstn_skipn (S i) (pop i l)).
              apply in_or_app. right. exact Hin.
        -- intro Hin. apply Hfresh. rewrite Hpop, map_app.
           apply in_or_app. right. exact Hin.
      * rewrite IH; [|exact Hl | lia].
        rewrite (firstn_nth l i j Hn), <- app_assoc. reflexivity.
    + apply nth_error_None in Hn.
      rewrite skipn_all2, firstn_all2 by lia. now rewrite app_nil_r.
Qed.

Lemma remove_one_filter (job_id : string) (l : list job) :
  NoDup (map uuid l) -> remove_one job_id l = filter (kept job_id) l.
Proof.
  intro Hl. unfold remove_one.
  rewrite remove_scan_filter by (auto; lia). reflexivity.
Qed.

Lemma up_scan_In (fuel : nat) (job_id : string) (i : nat) (l : list job)
    (x : job) :
  In x (up_scan fuel job_id i l) <-> In x l.
Proof.
  revert i l. induction fuel as [|fuel IH]; intros i l; cbn; [tauto|].
  destruct (nth_error l i) as [j|] eqn:Hn; [|tauto].
  destruct (_ && _); rewrite IH; [apply move_In, Hn | tauto].
Qed.

Lemma up_scan_NoDup (fuel : nat) (job_id : string) (i : nat) (l : list job) :
  NoDup (map uuid l) -> NoDup (map uuid (up_scan fuel job_id i l)).
Proof.
  revert i l. induction fuel as [|fuel IH]; intros i l Hl; cbn; [auto|].
  destruct (nth_error l i) as [j|] eqn:Hn; [|auto].
  destruct (_ && _); apply IH; [apply move_NoDup; assumption | exact Hl].
Qed.

Lemma down_scan_In (fuel : nat) (job_id : string) (i : nat) (l : list job)
    (x : job) :
  In x (down_scan fuel job_id i l) <-> In x l.
Proof.
  revert i l. induction fuel as [|fuel IH]; intros i l; cbn; [tauto|].
  destruct (nth_error l i) as [j|] eqn:Hn; [|tauto].
  destruct (_ && _); rewrite IH; [apply move_In, Hn | tauto].
Qed.

Lemma down_scan_NoDup (fuel : nat) (job_id : string) (i : nat)
    (l : list job) :
  NoDup (map uuid l) -> NoDup (map uuid (down_scan fuel job_id i l)).
Proof.
  revert i l. induction fuel as [|fuel IH]; intros i l Hl; cbn; [auto|].
  destruct (nth_error l i) as [j|] eqn:Hn; [|auto].
  destruct (_ && _); apply IH; [apply move_NoDup; assumption | exact Hl].
Qed.

Lemma remove_task_In (selected : list string) (l l' : list job) (x : job) :
  remove_task selected l = Returned l' -> In x l' -> In x l.
Proof.
  revert l. induction selected as [|q rest IH]; intros l; cbn.
  - intros [= ->]. auto.
  - destruct (last_word q) as [job_id|e]; cbn; [|discriminate].
    intros H Hx. eapply remove_scan_In, IH; eauto.
Qed.

Lemma remove_task_NoDup (selected : list string) (l l' : list job) :
  remove_task selected l = Returned l' ->
  NoDup (map uuid l) -> NoDup (map uuid l').
Proof.
  revert l. induction selected as [|q rest IH]; intros l; cbn.
  - intros [= ->]. auto.
  - destruct (last_word q) as [job_id|e]; cbn; [|discriminate].
    intros H Hl. eapply IH; [exact H|]. apply remove_scan_NoDup, Hl.
Qed.

(** "Remove task" leaves every job shown as started in the list, whatever
    is selected. *)
Lemma remove_task_keeps_started (selected : list string) (l l' : list job)
    (x : job) :
  remove_task selected l = Returned l' ->
  In x l -> status x = started -> In x l'.
Proof.
  revert l. induction selected as [|q rest IH]; intros l; cbn.
  - intros [= ->]. auto.
  - destruct (last_word q) as [job_id|e]; cbn; [|discriminate].
    intros H Hx Hst. eapply IH; [exact H | | exact Hst].
    apply remove_scan_keeps_started; assumption.
Qed.

(** "Remove task" on the line of one job of the list. *)
Lemma remove_task_one (l : list job) (j : job) :
  In j l -> NoDup (map uuid l) -> Sys.is_uuid_hex (uuid j) = true ->
  remove_task [display j] l
  = Returned (if String.eqb (status j) started then l
              else filter (fun x => negb (String.eqb (uuid x) (uuid j))) l).
Proof.
  intros Hj Hl Hhex. cbn [remove_task].
  rewrite (last_word_display j Hhex). cbn [Py.bind]. f_equal.
  rewrite (remove_one_filter _ _ Hl).
  assert (Hsame : forall x, In x l -> uuid x = uuid j -> x = j).
  { clear Hhex. induction l as [|y l IH]; cbn in *; [tauto|].
    inversion Hl as [|? ? Hy Hl']; subst.
    intros x [->|Hx] Hu; destruct Hj as [->|Hj]; auto.
    - exfalso. apply Hy. rewrite Hu. apply in_map, Hj.
    - exfalso. apply Hy. rewrite <- Hu. apply in_map, Hx. }
  destruct (String.eqb (status j) started) eqn:Hst.
  - apply filter_all. intros x Hx. unfold kept.
    destruct (String.eqb_spec (uuid x) (uuid j)) as [Hu|]; [|reflexivity].
    rewrite (Hsame x Hx Hu), Hst. reflexivity.
  - apply filter_ext_in. intros x Hx. unfold kept.
    destruct (String.eqb_spec (uuid x) (uuid j)) as [Hu|]; [|reflexivity].
    rewrite (Hsame x Hx Hu), Hst. reflexivity.
Qed.

End JobsFacts.

(** ** The invariant of the job list and the event queue *)

Module Invariant.

Import Jobs Sys.
Local Open Scope list_scope.

Lemma alternates_start (o : option string) (evs : list event) (u : string) :
  alternates o evs -> last_open o evs = None ->
  alternates o (evs ++ [Event u started])
  /\ last_open o (evs ++ [Event u started]) = Some u.
Proof.
  revert o. induction evs as [|ev rest IH]; intros o Halt Hlast; cbn in *.
  - subst o. auto.
  - destruct o as [v|]; destruct Halt as [H1 H2];
      destruct (IH _ H2 Hlast) as [H3 H4]; auto.
Qed.

Lemma alternates_finish (o : option string) (evs : list event) (u : string) :
  alternates o evs -> last_open o evs = Some u ->
  alternates o (evs ++ [Event u finished])
  /\ last_open o (evs ++ [Event u finished]) = None.
Proof.
  revert o. induction evs as [|ev rest IH]; intros o Halt Hlast; cbn in *.
  - subst o. auto.
  - destruct o as [v|]; destruct Halt as [H1 H2];
      destruct (IH _ H2 Hlast) as [H3 H4]; auto.
Qed.

Lemma consistent_same (s s' : state) :
  encode_list s' = encode_list s -> encode_event s' = encode_event s ->
  worker s' = worker s -> consistent s -> consistent s'.
Proof.
  intros Hl He Hw (o & H1 & H2 & H3 & H4). exists o.
  rewrite Hl, He, Hw. auto.
Qed.

Lemma consistent_list (s s' : state) :
  encode_event s' = encode_event s -> worker s' = worker s ->
  (forall x, In x (encode_list s') ->
             In x (encode_list s) \/ status x <> started) ->
  (NoDup (map uuid (encode_list s)) -> NoDup (map uuid (encode_list s'))) ->
  consistent s -> consistent s'.
Proof.
  intros He Hw Hin Hnd (o & H1 & H2 & H3 & H4). exists o.
  rewrite He, Hw. repeat split; auto.
  intros j Hj Hst. destruct (Hin j Hj) as [H|H]; [auto | contradiction].
Qed.

Lemma worker_step_consistent (w : world) (s s' : state) :
  consistent s -> worker_step w s = Some s' -> consistent s'.
Proof.
  intros (o & Halt & Hst & Hnd & Hw) Hstep.
  unfold worker_step in Hstep. unfold worker_agrees in Hw.
  destruct (worker s) as [ | | |j|j total|j total out msg|j total out d|j d
                          |j d r| |e]; cbv beta iota zeta in Hstep;
    cbn [emitting] in Hw.
  - injection Hstep as <-. exists o.
    destruct (encode_queue_active s); cbn; auto.
  - destruct (encode_queue_active s); [|discriminate].
    injection Hstep as <-. exists o. cbn; auto.
  - destruct (encode_queue s) as [|it rest]; [discriminate|].
    injection Hstep as <-. exists o. destruct it; cbn; auto.
  - destruct (total_frames_of _ _) as [total|e]; injection Hstep as <-.
    + destruct (alternates_start o _ (uuid j) Halt Hw) as [H1 H2].
      exists o. cbn. auto.
    + exists o. cbn. auto.
  - destruct (spawn w); injection Hstep as <-; exists o; cbn; auto.
  - destruct out as [|line rest];
      [|destruct (Progress.is_progress_line line)];
      injection Hstep as <-; exists o; cbn; auto.
  - destruct (stoprequest s);
      [injection Hstep as <-; exists o; cbn; auto|].
    destruct out as [|line rest];
      [injection Hstep as <-; exists o; cbn; auto|].
    destruct (Progress.is_progress_line line);
      [|injection Hstep as <-; exists o; cbn; auto].
    destruct (Progress.process_line _ _ _ _) as [[d' smp]|e];
      injection Hstep as <-; exists o; cbn; auto.
  - destruct (inspect w); injection Hstep as <-; exists o; cbn; auto.
  - injection Hstep as <-.
    destruct (alternates_finish o _ (uuid j) Halt Hw) as [H1 H2].
    exists o. cbn. auto.
  - discriminate.
  - discriminate.
Qed.

Lemma uuid_in_spec (u : string) (l : list job) :
  uuid_in u l = false -> ~ In u (map uuid l).
Proof.
  unfold uuid_in. intros H Hin.
  apply in_map_iff in Hin as [x [Hx Hin]].
  assert (existsb (fun j => String.eqb (uuid j) u) l = true) as Ht.
  { apply existsb_exists. exists x. split; [exact Hin|].
    apply String.eqb_eq, Hx. }
  congruence.
Qed.

Lemma apply_event_uuid (u ev : string) (l : list job) :
  map uuid (apply_event u ev l) = map uuid l.
Proof.
  unfold apply_event. rewrite map_map. apply map_ext.
  intro j. destruct (String.eqb (uuid j) u); reflexivity.
Qed.

Lemma finished_not_started : finished <> started.
Proof. discriminate. Qed.

Lemma waiting_not_started : waiting <> started.
Proof. discriminate. Qed.

Lemma poll_event_consistent (s : state) (ev : event) (rest : list event)
    (s' : state) :
  encode_event s = ev :: rest ->
  encode_list s' = apply_event (ev_uuid ev) (ev_event ev) (encode_list s) ->
  encode_event s' = rest -> worker s' = worker s ->
  consistent s -> consistent s'.
Proof.
  intros He Hl He' Hw' (o & Halt & Hst & Hnd & Hw).
  rewrite He in Halt, Hw. cbn in Halt, Hw.
  destruct o as [u|]; destruct Halt as [H1 H2].
  - exists None. rewrite Hl, He', Hw', apply_event_uuid.
    repeat split; auto.
    intros j Hj Hs. exfalso. unfold apply_event in Hj.
    apply in_map_iff in Hj as [x [Hx Hin]]. subst ev. cbn in Hx.
    destruct (String.eqb_spec (uuid x) u) as [Hu|Hu].
    + subst j. cbn in Hs. exact (finished_not_started Hs).
    + subst j. specialize (Hst x Hin Hs). congruence.
  - exists (Some (ev_uuid ev)). rewrite Hl, He', Hw', apply_event_uuid.
    repeat split; auto.
    intros j Hj Hs. unfold apply_event in Hj.
    apply in_map_iff in Hj as [x [Hx Hin]].
    destruct (String.eqb_spec (uuid x) (ev_uuid ev)) as [Hu|Hu].
    + subst j. cbn. congruence.
    + subst j. specialize (Hst x Hin Hs). discriminate.
Qed.

Lemma NoDup_snoc (l : list string) (u : string) :
  ~ In u l -> NoDup l -> NoDup (l ++ [u]).
Proof.
  induction l as [|y l IH]; cbn; intros Hu Hl.
  - constructor; [intros [] | constructor].
  - inversion Hl as [|? ? Hy Hl']; subst. constructor.
    + intro Hin. apply in_app_or in Hin as [Hin|[<-|[]]]; [auto|].
      apply Hu. left. reflexivity.
    + apply IH; auto.
Qed.

Lemma handle_consistent (a : gui_action) (s s' : state) :
  consistent s -> handle a s = Some s' -> consistent s'.
Proof.
  intros Hc Hstep. destruct a; cbn [handle] in Hstep.
  - discriminate.
  - injection Hstep as <-. revert Hc. apply consistent_same; reflexivity.
  - destruct (md_contains_video _); [|injection Hstep as <-; exact Hc].
    destruct (is_uuid_hex job_id && negb (uuid_in job_id (encode_list s)))
      eqn:Hg; [|discriminate].
    injection Hstep as <-. apply andb_prop in Hg as [_ Hfresh].
    apply negb_true_iff, uuid_in_spec in Hfresh.
    revert Hc. apply consistent_list; cbn; try reflexivity.
    + intros x Hx. apply in_app_or in Hx as [Hx|[<-|[]]]; [left; exact Hx|].
      right. cbn. exact waiting_not_started.
    + intro Hnd. rewrite map_app. cbn. apply NoDup_snoc; assumption.
  - destruct (remove_task selected (encode_list s)) as [l|e] eqn:Hr;
      [|discriminate].
    injection Hstep as <-.
    revert Hc. apply consistent_list; cbn; try reflexivity.
    + intros x Hx. left. eapply JobsFacts.remove_task_In; eauto.
    + eapply JobsFacts.remove_task_NoDup; eauto.
  - destruct (single_selection selected (encode_list s)) as [[job_id|]|e];
      [|injection Hstep as <-; exact Hc | discriminate].
    injection Hstep as <-.
    revert Hc. apply consistent_list; cbn; try reflexivity.
    + intros x Hx. left. eapply JobsFacts.up_scan_In; eauto.
    + apply JobsFacts.up_scan_NoDup.
  - destruct (single_selection selected (encode_list s)) as [[job_id|]|e];
      [|injection Hstep as <-; exact Hc | discriminate].
    injection Hstep as <-.
    revert Hc. apply consistent_list; cbn; try reflexivity.
    + intros x Hx. left. eapply JobsFacts.down_scan_In; eauto.
    + apply JobsFacts.down_scan_NoDup.
  - injection Hstep as <-. revert Hc. apply consistent_same; reflexivity.
  - injection Hstep as <-. revert Hc. apply consistent_same; reflexivity.
  - discriminate.
  - injection Hstep as <-. revert Hc. apply consistent_same; reflexivity.
  - injection Hstep as <-. revert Hc. apply consistent_same; reflexivity.
  - destruct (encode_event s) as [|ev rest] eqn:He;
      [injection Hstep as <-; exact Hc|].
    injection Hstep as <-.
    revert Hc. apply (poll_event_consistent s ev rest); auto.
  - injection Hstep as <-. revert Hc. apply consistent_same; reflexivity.
Qed.

Lemma gui_step_consistent (a : gui_action) (s s' : state) :
  consistent s -> gui_step a s = Some s' -> consistent s'.
Proof.
  intros Hc Hstep. unfold gui_step in Hstep.
  destruct (gui s) as [ | |todo| | | | | | | ] eqn:Hg.
  - destruct a; try discriminate. injection Hstep as <-.
    revert Hc. apply consistent_same; reflexivity.
  - eapply handle_consistent; eauto.
  - destruct todo as [|j rest]; destruct a; try discriminate.
    injection Hstep as <-. revert Hc. apply consistent_same; reflexivity.
  - destruct a; try discriminate. injection Hstep as <-.
    revert Hc. apply consistent_same; reflexivity.
  - destruct a; try discriminate. injection Hstep as <-.
    revert Hc. apply consistent_same; reflexivity.
  - destruct a; try discriminate. injection Hstep as <-.
    revert Hc. apply consistent_same; reflexivity.
  - destruct a; try discriminate. injection Hstep as <-.
    revert Hc. apply consistent_same; reflexivity.
  - destruct a; try discriminate. injection Hstep as <-.
    revert Hc. apply consistent_same; reflexivity.
  - destruct a; try discriminate.
    destruct (worker_ended (worker s)); [|discriminate].
    injection Hstep as <-. revert Hc. apply consistent_same; reflexivity.
  - destruct a; discriminate.
Qed.

Lemma step_consistent (a : action) (s s' : state) :
  consistent s -> step a s = Some s' -> consistent s'.
Proof.
  destruct a as [w|g]; cbn [step];
    [apply worker_step_consistent | apply gui_step_consistent].
Qed.

Lemma run_consistent (t : list action) (s s' : state) :
  consistent s -> run t s = Some s' -> consistent s'.
Proof.
  revert s. induction t as [|a t IH]; intros s Hc; cbn.
  - intros [= <-]. exact Hc.
  - destruct (step a s) as [s1|] eqn:Hs; [|discriminate].
    apply IH. eapply step_consistent; eauto.
Qed.

Lemma initial_consistent : consistent initial.
Proof.
  exists None. cbn. repeat split; auto.
  - intros j [].
  - constructor.
Qed.

Lemma reachable_consistent (s : state) : reachable s -> consistent s.
Proof.
  intros [t Ht]. eapply run_consistent; [exact initial_consistent | exact Ht].
Qed.

(** Jobs with one status and distinct ids that all carry the same id are
    at most one. *)
Lemma at_most_one (p : job -> bool) (u : string) (l : list job) :
  NoDup (map uuid l) ->
  (forall x, In x l -> p x = true -> uuid x = u) ->
  (List.length (filter p l) <= 1)%nat.
Proof.
  induction l as [|y l IH]; cbn; intros Hnd Hu; [lia|].
  inversion Hnd as [|? ? Hy Hl]; subst.
  destruct (p y) eqn:Hp.
  - assert (filter p l = []) as ->; [|cbn; lia].
    destruct (filter p l) as [|x r] eqn:Hf; [reflexivity|].
    exfalso. assert (In x (filter p l)) as Hx by (rewrite Hf; left; auto).
    apply filter_In in Hx as [Hx Hpx]. apply Hy.
    rewrite (Hu y (or_introl eq_refl) Hp), <- (Hu x (or_intror Hx) Hpx).
    apply in_map, Hx.
  - apply IH; auto.
Qed.

Lemma consistent_running_count (s : state) :
  consistent s -> (running_count (encode_list s) <= 1)%nat.
Proof.
  intros (o & _ & Hst & Hnd & _). unfold running_count.
  destruct o as [u|].
  - apply (at_most_one _ u); [exact Hnd|].
    intros x Hx Hp. apply String.eqb_eq in Hp.
    specialize (Hst x Hx Hp). congruence.
  - apply (at_most_one _ EmptyString); [exact Hnd|].
    intros x Hx Hp. apply String.eqb_eq in Hp.
    specialize (Hst x Hx Hp). discriminate.
Qed.

End Invariant.

(** ** Pausing the queue *)

Module Pausing.

Import Jobs Sys.
Local Open Scope list_scope.

(** Case analysis on every test a step makes. *)
Ltac break_step H :=
  repeat match type of H with
         | context [match ?x with _ => _ end] => destruct x eqn:?
         | context [if ?x then _ else _] => destruct x eqn:?
         end.

(** Inside a job the worker reads nothing but its own variables, the
    outside and [stoprequest]. *)
Lemma job_step_view (w : world) (s s' r : state) :
  job_view s = job_view s' -> in_job (worker s) = true ->
  worker_step w s = Some r ->
  exists r', worker_step w s' = Some r' /\ job_view r = job_view r'.
Proof.
  unfold job_view. intros Hv Hin Hstep.
  injection Hv as Hw Hstop Hrun Hev Hgq Hsd.
  unfold worker_step in *. rewrite <- Hw.
  destruct (worker s) as [ | | |j|j total|j total out msg|j total out d|j d
                          |j d rep| |e]; try discriminate Hin;
    cbv beta iota zeta in *.
  - destruct (spawn w); injection Hstep as <-; eexists; split;
      try reflexivity; cbn; congruence.
  - destruct out as [|line rest];
      [|destruct (Progress.is_progress_line line)];
      injection Hstep as <-; eexists; split; try reflexivity; cbn; congruence.
  - rewrite <- Hstop. destruct (stoprequest s) eqn:Hreq;
      [injection Hstep as <-; eexists; split; try reflexivity;
       cbn; congruence|].
    destruct out as [|line rest];
      [injection Hstep as <-; eexists; split; try reflexivity;
       cbn; congruence|].
    destruct (Progress.is_progress_line line);
      [|injection Hstep as <-; eexists; split; try reflexivity;
        cbn; congruence].
    destruct (Progress.process_line _ _ _ _) as [[d' smp]|e];
      injection Hstep as <-; eexists; split; try reflexivity; cbn; congruence.
  - destruct (inspect w); injection Hstep as <-; eexists; split;
      try reflexivity; cbn; congruence.
  - injection Hstep as <-; eexists; split; try reflexivity; cbn; congruence.
Qed.

Lemma job_run_view (ws : list world) (s s' r : state) :
  job_view s = job_view s' -> job_run ws s = Some r ->
  exists r', job_run ws s' = Some r' /\ job_view r = job_view r'.
Proof.
  revert s s'. induction ws as [|w ws IH]; intros s s' Hv; cbn.
  - intros [= <-]. eauto.
  - assert (worker s' = worker s) as Hw by (unfold job_view in Hv; congruence).
    rewrite Hw. destruct (in_job (worker s)) eqn:Hin; [|discriminate].
    destruct (worker_step w s) as [s1|] eqn:Hs; [|discriminate].
    destruct (job_step_view w s s' s1 Hv Hin Hs) as [s1' [Hs' Hv']].
    rewrite Hs'. apply IH, Hv'.
Qed.

(** The steps that clear [encode_queue_active] leave the job alone. *)
Lemma clearing_step_view (a : action) (s s' : state) :
  step a s = Some s' ->
  encode_queue_active s = true -> encode_queue_active s' = false ->
  job_view s' = job_view s.
Proof.
  intros Hstep Hon Hoff. destruct a as [w|g]; cbn [step] in Hstep.
  - exfalso. unfold worker_step in Hstep.
    destruct (worker s) as [ | | |j|j total|j total out msg|j total out d|j d
                            |j d rep| |e]; cbv beta iota zeta in Hstep;
      break_step Hstep;
      try discriminate Hstep; injection Hstep as <-; cbn in Hoff; congruence.
  - unfold gui_step in Hstep.
    destruct (gui s) as [ | |todo| | | | | | | ].
    + destruct g; try discriminate. injection Hstep as <-. discriminate Hoff.
    + destruct g; cbn [handle] in Hstep;
        break_step Hstep;
        try discriminate Hstep; injection Hstep as <-;
        try reflexivity; cbn in Hoff; congruence.
    + destruct todo; destruct g; try discriminate.
      injection Hstep as <-. cbn in Hoff. congruence.
    + destruct g; try discriminate. injection Hstep as <-. reflexivity.
    + destruct g; try discriminate. injection Hstep as <-.
      cbn in Hoff. congruence.
    + destruct g; try discriminate. injection Hstep as <-.
      cbn in Hoff. congruence.
    + destruct g; try discriminate. injection Hstep as <-.
      cbn in Hoff. congruence.
    + destruct g; try discriminate. injection Hstep as <-. discriminate Hoff.
    + destruct g; try discriminate.
      destruct (worker_ended (worker s)); [|discriminate].
      injection Hstep as <-. cbn in Hoff. congruence.
    + destruct g; discriminate.
Qed.

(** While the flag is cleared, a worker that is not at [get()] does not
    come to it, and nothing is taken off the queue. *)
Lemma paused_step (a : action) (s s' : state) :
  step a s = Some s' -> encode_queue_active s = false ->
  held (worker s) = true ->
  held (worker s') = true /\ takes a s = None.
Proof.
  intros Hstep Hoff Hheld. split.
  - destruct a as [w|g]; cbn [step] in Hstep.
    + unfold worker_step in Hstep. rewrite Hoff in Hstep.
      destruct (worker s) as [ | | |j|j total|j total out msg|j total out d|j d
                              |j d rep| |e]; try discriminate Hheld;
        cbv beta iota zeta in Hstep;
        break_step Hstep;
        try discriminate Hstep; injection Hstep as <-; reflexivity.
    + assert (worker s' = worker s) as ->; [|exact Hheld].
      unfold gui_step in Hstep.
      destruct (gui s) as [ | |todo| | | | | | | ];
        try (destruct todo); destruct g; cbn [handle] in Hstep;
        break_step Hstep;
        try discriminate Hstep; injection Hstep as <-; reflexivity.
  - unfold takes. destruct a; [|reflexivity].
    destruct (worker s); try reflexivity. discriminate Hheld.
Qed.

Lemma paused_run (t : list action) (s s' : state) :
  run_paused t s = Some s' -> encode_queue_active s = false ->
  held (worker s) = true ->
  taken t s = [] /\ held (worker s') = true.
Proof.
  revert s. induction t as [|a t IH]; intros s; cbn.
  - intros [= <-] _ H. auto.
  - destruct (step a s) as [s1|] eqn:Hs; [|discriminate].
    destruct (encode_queue_active s1) eqn:Hoff1; [discriminate|].
    intros Hrun Hoff Hheld.
    destruct (paused_step a s s1 Hs Hoff Hheld) as [H1 H2].
    rewrite H2. apply IH; assumption.
Qed.

Lemma in_job_held (pc : worker_pc) : in_job pc = true -> held pc = true.
Proof. destruct pc; cbn; congruence. Qed.

End Pausing.

(** ** A job beside the event loop *)

Module CourseFacts.

Import Jobs Sys Course.
Local Open Scope list_scope.

(** The event loop touches neither the place of the worker nor the two
    flags of a job, but for "Stop encode" and the exit. *)
Lemma gui_quiet (a : gui_action) (s s' : state) :
  gui_step a s = Some s' -> stops (Gui a) = false -> core s' = core s.
Proof.
  intros H Hq. unfold gui_step, handle in H.
  destruct a; try discriminate Hq; Pausing.break_step H;
    try discriminate H; injection H as <-; reflexivity.
Qed.

(** Inside a job, where the worker goes depends on where it stands, on
    [stoprequest] and on the outside alone. *)
Lemma core_step (w : world) (s s' r r' : state) :
  in_job (worker s) = true -> core s = core s' ->
  worker_step w s = Some r -> worker_step w s' = Some r' ->
  core r = core r'.
Proof.
  unfold core. intros Hin Hc Hr Hr'. injection Hc as Hw Hstop Hrun.
  unfold worker_step in Hr, Hr'. rewrite <- Hw, <- Hstop in Hr'.
  destruct (worker s) as [ | | |j|j total|j total out msg|j total out d|j d
                          |j d rep| |e]; try discriminate Hin;
    cbv beta iota zeta in Hr, Hr'.
  - destruct (spawn w); injection Hr as <-; injection Hr' as <-;
      cbn; congruence.
  - destruct out as [|line rest];
      [|destruct (Progress.is_progress_line line)];
      injection Hr as <-; injection Hr' as <-; cbn; congruence.
  - destruct (stoprequest s) eqn:Hreq;
      [injection Hr as <-; injection Hr' as <-; cbn; congruence|].
    destruct out as [|line rest];
      [injection Hr as <-; injection Hr' as <-; cbn; congruence|].
    destruct (Progress.is_progress_line line);
      [|injection Hr as <-; injection Hr' as <-; cbn; congruence].
    destruct (Progress.process_line _ _ _ _) as [[d' smp]|e];
      injection Hr as <-; injection Hr' as <-; cbn; congruence.
  - destruct (inspect w); injection Hr as <-; injection Hr' as <-;
      cbn; congruence.
  - injection Hr as <-; injection Hr' as <-; cbn; congruence.
Qed.

(** The steps of the event loop that are laid between the steps of a job
    leave the job where the worker alone would have brought it. *)
Lemma beside_run (t : list action) (s s1 s2 r : state) :
  core s1 = core s ->
  existsb stops t = false ->
  job_run (worker_worlds t) s = Some r ->
  run t s1 = Some s2 ->
  core s2 = core r.
Proof.
  revert s s1. induction t as [|a t IH]; intros s s1 Hc Hq Hjob Hrun.
  - cbn in Hjob, Hrun. injection Hjob as <-. injection Hrun as <-. exact Hc.
  - cbn [existsb] in Hq. apply orb_false_elim in Hq as [Ha Ht].
    cbn [run] in Hrun.
    destruct (step a s1) as [s1'|] eqn:Hstep; [|discriminate Hrun].
    destruct a as [w|g].
    + cbn [worker_worlds job_run] in Hjob.
      destruct (in_job (worker s)) eqn:Hin; [|discriminate Hjob].
      destruct (worker_step w s) as [s'|] eqn:Hs; [|discriminate Hjob].
      apply (IH s' s1'); auto.
      symmetry. apply (core_step w s s1 s' s1'); auto.
    + cbn [worker_worlds] in Hjob.
      apply (IH s s1'); auto.
      rewrite (gui_quiet g s1 s1' Hstep Ha). exact Hc.
Qed.

(** A worker that holds a job is never blocked; each of its steps brings
    it nearer to the end of the job, and it leaves the job either at the
    head of its loop or by an exception that ends the thread. *)
Lemma busy_step (w : world) (s : state) :
  current (worker s) <> None ->
  exists s',
    worker_step w s = Some s'
    /\ nearer (worker s') (worker s)
    /\ (current (worker s') = None ->
        worker s' = WTop \/ exists e, worker s' = WDead e).
Proof.
  intro Hcur. unfold worker_step, nearer.
  destruct (worker s) as [ | | |j|j total|j total out msg|j total out d|j d
                          |j d rep| |e]; try (exfalso; apply Hcur; reflexivity);
    cbv beta iota zeta.
  - destruct (total_frames_of _ _); eexists; (split; [reflexivity|]);
      cbn; split; try (left; lia); intros; eauto; discriminate.
  - destruct (spawn w); eexists; (split; [reflexivity|]);
      cbn; split; try (left; lia); intros; eauto; discriminate.
  - destruct out as [|line rest];
      [|destruct (Progress.is_progress_line line)];
      eexists; (split; [reflexivity|]); cbn;
      (split; [first [left; lia | right; lia] | intros; discriminate]).
  - destruct (stoprequest s);
      [eexists; (split; [reflexivity|]); cbn;
       (split; [left; lia | intros; discriminate])|].
    destruct out as [|line rest];
      [eexists; (split; [reflexivity|]); cbn;
       (split; [left; lia | intros; discriminate])|].
    destruct (Progress.is_progress_line line);
      [|eexists; (split; [reflexivity|]); cbn;
        (split; [left; lia | intros; discriminate])].
    destruct (Progress.process_line _ _ _ _) as [[d' smp]|e];
      eexists; (split; [reflexivity|]); cbn.
    + split; [right; lia | intros; discriminate].
    + split; [left; lia | intros; eauto].
  - destruct (inspect w); eexists; (split; [reflexivity|]); cbn;
      (split; [left; lia | intros; eauto; discriminate]).
  - eexists; (split; [reflexivity|]); cbn.
    split; [left; lia | intros; eauto].
Qed.

End CourseFacts.

(** C1 (the code departs from it): the program has no cancelled status.
    With [stoprequest] set the progress loop goes to the same point as at
    the end of the output, and the end of the job puts the event
    [finished] whatever ended the encode: a job stopped in mid-encode is
    shown as finished once the GUI has read its events.  Nor is finished
    final: a job put on the queue twice (added jobs rebuild the queue from
    all jobs still shown as waiting) is encoded again and goes from
    finished back to started. *)
Theorem stopped_job_is_shown_finished :
  (forall l md q ev gq sd run act g j total out d w,
     Sys.worker_step w
       (Sys.State l md q ev gq sd true run act (Sys.WProgress j total out d) g)
     = Some (Sys.State l md q ev
               (gq ++ [Sys.Text "Reiceived kill signal, stopping..."])%list
               sd true run act (Sys.WInspect j d) g))
  /\ (forall l md q ev gq sd stop run act g j d r w,
        option_map Sys.encode_event
          (Sys.worker_step w
             (Sys.State l md q ev gq sd stop run act (Sys.WFinish j d r) g))
        = Some (ev ++ [Sys.Event (Jobs.uuid j) Jobs.finished])%list)
  /\ option_map (fun s => (map Jobs.status (Sys.encode_list s),
                           Sys.gui_queue s, Sys.stoprequest s))
       (Sys.run Fixtures.stopped_run Sys.initial)
     = Some ([Jobs.finished],
             [Sys.Text "Found ffmpeg"; Sys.Text "START ENCODE VIDEO";
              Sys.Text "Reiceived kill signal, stopping...";
              Sys.EndOfJob "film.mkv" 5 120 ""],
             false)
  /\ option_map (fun s => map Jobs.status (Sys.encode_list s))
       (Sys.run Fixtures.double_add Sys.initial)
     = Some [Jobs.finished; Jobs.waiting]
  /\ option_map (fun s => map Jobs.status (Sys.encode_list s))
       (Sys.run Fixtures.double_add_next Sys.initial)
     = Some [Jobs.started; Jobs.waiting].
Proof.
  split; [reflexivity|]. split; [reflexivity|].
  repeat split; vm_compute; reflexivity.
Qed.

(** C2, as the code has it: "Remove task" on the line of a job shown as
    started does not fail, it passes the job over: the handler returns,
    [encode_list] is as before, and the queue is rebuilt from the jobs
    shown as waiting.  On the line of a job of any other status the job
    leaves the list, the others stay in their order.  Whatever lines are
    selected, every job shown as started stays in the list. *)
Theorem remove_passes_over_running :
  forall (s : Sys.state) (j : Jobs.job),
    In j (Sys.encode_list s) ->
    NoDup (map Jobs.uuid (Sys.encode_list s)) ->
    Sys.is_uuid_hex (Jobs.uuid j) = true ->
    Sys.gui s = Sys.GIdle ->
    (Jobs.status j = Jobs.started ->
     Jobs.remove_task [Jobs.display j] (Sys.encode_list s)
     = Returned (Sys.encode_list s)
     /\ Sys.gui_step (Sys.RemoveTask [Jobs.display j]) s
        = Some (Sys.rebuild (Sys.encode_list s) s))
    /\ (Jobs.status j <> Jobs.started ->
        Jobs.remove_task [Jobs.display j] (Sys.encode_list s)
        = Returned (filter (fun x => negb (String.eqb (Jobs.uuid x) (Jobs.uuid j)))
                           (Sys.encode_list s))
        /\ Sys.gui_step (Sys.RemoveTask [Jobs.display j]) s
           = Some (Sys.rebuild
                     (filter (fun x => negb (String.eqb (Jobs.uuid x) (Jobs.uuid j)))
                             (Sys.encode_list s)) s)
        /\ ~ In j (filter (fun x => negb (String.eqb (Jobs.uuid x) (Jobs.uuid j)))
                          (Sys.encode_list s)))
    /\ (forall selected l' x,
          Jobs.remove_task selected (Sys.encode_list s) = Returned l' ->
          In x (Sys.encode_list s) -> Jobs.status x = Jobs.started ->
          In x l').
Proof.
  intros s j Hj Hnd Hhex Hidle.
  pose proof (JobsFacts.remove_task_one _ j Hj Hnd Hhex) as Hone.
  split; [|split].
  - intro Hst. apply String.eqb_eq in Hst. rewrite Hst in Hone.
    split; [exact Hone|].
    unfold Sys.gui_step. rewrite Hidle. cbn [Sys.handle]. now rewrite Hone.
  - intro Hst. apply String.eqb_neq in Hst. rewrite Hst in Hone.
    split; [exact Hone|]. split.
    + unfold Sys.gui_step. rewrite Hidle. cbn [Sys.handle]. now rewrite Hone.
    + intro Hin. apply filter_In in Hin as [_ Hin].
      rewrite String.eqb_refl in Hin. discriminate Hin.
  - intros selected l' x. apply JobsFacts.remove_task_keeps_started.
Qed.

Lemma remove_passes_over_running_witness :
  Jobs.remove_task [Jobs.display Fixtures.running_a]
    [Fixtures.running_a; Fixtures.job_b]
  = Returned [Fixtures.running_a; Fixtures.job_b]
  /\ Jobs.remove_task [Jobs.display Fixtures.job_b]
       [Fixtures.running_a; Fixtures.job_b]
     = Returned [Fixtures.running_a].
Proof.
  pose (s := Sys.State [Fixtures.running_a; Fixtures.job_b] Fixtures.film
               [] [] [] None false true true
               (Sys.WSpawn Fixtures.job_a 1000) Sys.GIdle).
  assert (Hnd : NoDup (map Jobs.uuid (Sys.encode_list s))).
  { cbn. constructor; [|constructor; [intros []|constructor]].
    intros [H|[]]. discriminate H. }
  split.
  - refine (proj1 (proj1 (remove_passes_over_running s Fixtures.running_a
                            _ Hnd eq_refl eq_refl) eq_refl)).
    left; reflexivity.
  - refine (proj1 (proj1 (proj2 (remove_passes_over_running s Fixtures.job_b
                                   _ Hnd eq_refl eq_refl)) _)).
    + right; left; reflexivity.
    + discriminate.
Defined.

(** C2, the statement of the specification fails: "Remove task" on the
    line of the job shown as started raises nothing; the handler returns
    the list as it was and the event loop goes on to rebuild the queue. *)
Lemma remove_running_does_not_fail :
  Jobs.remove_task [Jobs.display Fixtures.running_a]
    [Fixtures.running_a; Fixtures.job_b]
  = Returned [Fixtures.running_a; Fixtures.job_b]
  /\ Py.raises (Jobs.remove_task [Jobs.display Fixtures.running_a]
                  [Fixtures.running_a; Fixtures.job_b]) = false
  /\ option_map (fun s => (Sys.encode_list s, Sys.encode_queue s, Sys.gui s))
       (Sys.gui_step (Sys.RemoveTask [Jobs.display Fixtures.running_a])
          (Sys.State [Fixtures.running_a; Fixtures.job_b] Fixtures.film
             [Sys.Params Fixtures.job_b] [] [] None false true true
             (Sys.WSpawn Fixtures.job_a 1000) Sys.GIdle))
     = Some ([Fixtures.running_a; Fixtures.job_b], [],
             Sys.GBuild [Fixtures.job_b]).
Proof. repeat split; vm_compute; reflexivity. Qed.

(** C3: in every state the program reaches, whatever the interleaving of
    the worker with the handlers of the GUI (adding, removing and moving
    jobs, pausing and resuming, stopping, reading events, leaving), at
    most one job of the list is shown as started. *)
Theorem at_most_one_running :
  forall s : Sys.state,
    Sys.reachable s -> (Jobs.running_count (Sys.encode_list s) <= 1)%nat.
Proof.
  intros s Hs.
  apply Invariant.consistent_running_count, Invariant.reachable_consistent, Hs.
Qed.

Lemma at_most_one_running_witness :
  Jobs.running_count (Sys.encode_list Fixtures.one_running) = 1%nat
  /\ (Jobs.running_count (Sys.encode_list Fixtures.one_running) <= 1)%nat.
Proof.
  split; [reflexivity|].
  apply (at_most_one_running Fixtures.one_running).
  exists (Fixtures.add_one Fixtures.film
          ++ [Sys.Worker Fixtures.calm; Sys.Gui Sys.PollEvent])%list.
  vm_compute. reflexivity.
Defined.

(** C9: a step that clears [encode_queue_active] while the worker is
    inside a job changes nothing the job reads or writes, and the job goes
    on step for step as it would without the pause, to the same end.  This
    holds beside the event loop too: whatever the GUI does between the
    steps of the worker after the pause ([_skip] put, messages and events
    read, jobs added, removed or moved, the queue resumed), short of "Stop
    encode" and of leaving the program, the worker stands where it would
    stand had it run alone from the state before the pause, with
    [stoprequest] and [encode_running] as they would be.  Inside the job
    the worker is never blocked and each of its steps brings it nearer to
    the end of the job.  From the pause until the flag is set again, no
    job is taken off the queue and the worker neither reaches [get()] nor
    starts a job. *)
Theorem pause_withholds_next_job :
  forall (s s1 : Sys.state) (a : Sys.action),
    Sys.in_job (Sys.worker s) = true ->
    Sys.encode_queue_active s = true ->
    Sys.step a s = Some s1 ->
    Sys.encode_queue_active s1 = false ->
    Sys.job_view s1 = Sys.job_view s
    /\ (forall ws r,
          Sys.job_run ws s = Some r ->
          exists r1, Sys.job_run ws s1 = Some r1
                     /\ Sys.job_view r1 = Sys.job_view r)
    /\ (forall t s2 r,
          existsb Course.stops t = false ->
          Sys.job_run (Course.worker_worlds t) s = Some r ->
          Sys.run t s1 = Some s2 ->
          Course.core s2 = Course.core r)
    /\ (forall t s2,
          Sys.run t s1 = Some s2 ->
          Sys.in_job (Sys.worker s2) = true ->
          forall w, exists s3,
            Sys.worker_step w s2 = Some s3
            /\ Course.nearer (Sys.worker s3) (Sys.worker s2))
    /\ (forall t s2,
          Sys.run_paused t s1 = Some s2 ->
          Sys.taken t s1 = []
          /\ Sys.worker s2 <> Sys.WGet
          /\ (forall j, Sys.worker s2 <> Sys.WParams j)).
Proof.
  intros s s1 a Hin Hon Hstep Hoff.
  pose proof (Pausing.clearing_step_view a s s1 Hstep Hon Hoff) as Hview.
  split; [exact Hview|]. split; [|split; [|split]].
  - intros ws r Hrun.
    destruct (Pausing.job_run_view ws s s1 r (eq_sym Hview) Hrun)
      as [r1 [H1 H2]].
    exists r1. auto.
  - intros t s2 r Hq Hjob Hrun.
    apply (CourseFacts.beside_run t s s1 s2 r); auto.
    unfold Sys.job_view in Hview. unfold Course.core. congruence.
  - intros t s2 _ Hin2 w.
    destruct (CourseFacts.busy_step w s2) as (s3 & H1 & H2 & _).
    + destruct (Sys.worker s2); try discriminate Hin2; discriminate.
    + exists s3. auto.
  - intros t s2 Hrun.
    assert (Sys.held (Sys.worker s1) = true) as Hheld.
    { apply Pausing.in_job_held.
      assert (Sys.worker s1 = Sys.worker s) as ->; [|exact Hin].
      unfold Sys.job_view in Hview. congruence. }
    destruct (Pausing.paused_run t s1 s2 Hrun Hoff Hheld) as [H1 H2].
    split; [exact H1|].
    split; [|intro j]; intro Hpc; rewrite Hpc in H2; discriminate H2.
Qed.

Lemma pause_withholds_next_job_witness :
  Sys.job_view Fixtures.busy_paused = Sys.job_view Fixtures.busy
  /\ (exists r1, Sys.job_run (repeat Fixtures.calm 7) Fixtures.busy_paused
                 = Some r1
                 /\ Sys.worker r1 = Sys.WTop)
  /\ (exists s2, Sys.run Endings.beside_the_job Fixtures.busy_paused = Some s2
                 /\ Course.core s2 = (Sys.WTop, false, false))
  /\ Sys.taken Fixtures.while_paused Fixtures.busy_paused = [].
Proof.
  destruct (pause_withholds_next_job Fixtures.busy Fixtures.busy_paused
              (Sys.Gui Sys.PauseQueue) eq_refl eq_refl eq_refl eq_refl)
    as (Hview & Hjob & Hbeside & _ & Hpaused).
  split; [exact Hview|]. split; [|split].
  - destruct (Sys.job_run (repeat Fixtures.calm 7) Fixtures.busy) as [r|]
      eqn:Hrun; [|vm_compute in Hrun; discriminate Hrun].
    destruct (Hjob _ r Hrun) as [r1 [Hr1 Hv]].
    exists r1. split; [exact Hr1|].
    assert (Sys.worker r1 = Sys.worker r) as ->
      by (unfold Sys.job_view in Hv; congruence).
    vm_compute in Hrun. injection Hrun as <-. reflexivity.
  - destruct (Sys.run Endings.beside_the_job Fixtures.busy_paused) as [s2|]
      eqn:Hrun; [|vm_compute in Hrun; discriminate Hrun].
    destruct (Sys.job_run (Course.worker_worlds Endings.beside_the_job)
                Fixtures.busy) as [r|] eqn:Hjr;
      [|vm_compute in Hjr; discriminate Hjr].
    exists s2. split; [reflexivity|].
    rewrite (Hbeside Endings.beside_the_job s2 r eq_refl Hjr Hrun).
    vm_compute in Hjr. injection Hjr as <-. reflexivity.
  - destruct (Sys.run_paused Fixtures.while_paused Fixtures.busy_paused)
      as [s2|] eqn:Hrun; [|vm_compute in Hrun; discriminate Hrun].
    exact (proj1 (Hpaused _ s2 Hrun)).
Defined.

(** ** Leaving the program *)

Module Shutdown.

Import Jobs Sys.
Local Open Scope list_scope.














End Shutdown.




(** * Further properties of the code *)

(** ** Moving and removing jobs *)

Module MoveFacts.

Import Jobs.
Local Open Scope list_scope.

Lemma nth_error_middle (a b : list job) (x : job) :
  nth_error (a ++ x :: b) (List.length a) = Some x.
Proof. induction a as [|y a IH]; cbn; auto. Qed.

Lemma pop_middle (a b : list job) (x : job) :
  pop (List.length a) (a ++ x :: b) = a ++ b.
Proof. induction a as [|y a IH]; cbn; [reflexivity | now rewrite IH]. Qed.

Lemma insert_middle (a b : list job) (x : job) :
  insert (List.length a) x (a ++ b) = a ++ x :: b.
Proof.
  induction a as [|y a IH]; cbn; [destruct b; reflexivity | now rewrite IH].
Qed.

Lemma insert_perm (l : list job) (i : nat) (x : job) :
  Permutation (x :: l) (insert i x l).
Proof.
  revert i. induction l as [|y l IH]; intros [|i]; cbn; auto.
  eapply perm_trans; [apply perm_swap|]. apply perm_skip, IH.
Qed.

Lemma move_perm (l : list job) (i k : nat) (j : job) :
  nth_error l i = Some j -> Permutation l (insert k j (pop i l)).
Proof.
  intro Hn. destruct (JobsFacts.pop_split l i j Hn) as [Hl Hp].
  rewrite Hp. eapply perm_trans; [|apply insert_perm].
  rewrite Hl at 1. symmetry. apply Permutation_middle.
Qed.

Lemma up_scan_perm (fuel : nat) (job_id : string) (i : nat) (l : list job) :
  Permutation l (up_scan fuel job_id i l).
Proof.
  revert i l. induction fuel as [|fuel IH]; intros i l; cbn; [reflexivity|].
  destruct (nth_error l i) as [j|] eqn:Hn; [|reflexivity].
  destruct (_ && _); [|apply IH].
  eapply perm_trans; [apply (move_perm l i (i - 1) j Hn) | apply IH].
Qed.

Lemma down_scan_perm (fuel : nat) (job_id : string) (i : nat) (l : list job) :
  Permutation l (down_scan fuel job_id i l).
Proof.
  revert i l. induction fuel as [|fuel IH]; intros i l; cbn; [reflexivity|].
  destruct (nth_error l i) as [j|] eqn:Hn; [|reflexivity].
  destruct (_ && _); [|apply IH].
  eapply perm_trans; [apply (move_perm l i (i + 1) j Hn) | apply IH].
Qed.

(** No job from place [i] on carries the id: the scans change nothing. *)
Lemma up_scan_idle (fuel : nat) (job_id : string) (i : nat) (l : list job) :
  (forall x, In x (skipn i l) -> uuid x <> job_id) ->
  up_scan fuel job_id i l = l.
Proof.
  revert i. induction fuel as [|fuel IH]; intros i H; cbn; [reflexivity|].
  destruct (nth_error l i) as [j|] eqn:Hn; [|reflexivity].
  rewrite (JobsFacts.skipn_nth l i j Hn) in H.
  destruct (String.eqb_spec (uuid j) job_id) as [He|_].
  - exfalso. apply (H j); [left; reflexivity | exact He].
  - cbn. apply IH. intros x Hx. apply H. right. exact Hx.
Qed.

Lemma down_scan_idle (fuel : nat) (job_id : string) (i : nat) (l : list job) :
  (forall x, In x (skipn i l) -> uuid x <> job_id) ->
  down_scan fuel job_id i l = l.
Proof.
  revert i. induction fuel as [|fuel IH]; intros i H; cbn; [reflexivity|].
  destruct (nth_error l i) as [j|] eqn:Hn; [|reflexivity].
  rewrite (JobsFacts.skipn_nth l i j Hn) in H.
  destruct (String.eqb_spec (uuid j) job_id) as [He|_].
  - exfalso. apply (H j); [left; reflexivity | exact He].
  - cbn. apply IH. intros x Hx. apply H. right. exact Hx.
Qed.

Lemma skipn_app_length (a b : list job) :
  skipn (List.length a) (a ++ b) = b.
Proof. induction a as [|y a IH]; cbn; auto. Qed.

Lemma skipn_past (a b : list job) (x : job) (n : nat) :
  List.length a = n -> skipn (S n) (a ++ x :: b) = b.
Proof.
  intros <-. induction a as [|y a IH]; cbn; [reflexivity | exact IH].
Qed.

(** The walk of "UP" from place [length pre], with [mid] before the job. *)
Lemma up_scan_walk (job_id : string) (j p : job) (b mid pre a : list job)
    (fuel : nat) :
  uuid j = job_id ->
  (forall x, In x mid -> uuid x <> job_id) ->
  (forall x, In x b -> uuid x <> job_id) ->
  pre ++ mid = a ++ [p] ->
  (List.length mid < fuel)%nat ->
  up_scan fuel job_id (List.length pre) (pre ++ mid ++ j :: b)
  = a ++ j :: p :: b.
Proof.
  intros Hj Hmid Hb. revert pre fuel.
  induction mid as [|m mid IH]; intros pre fuel Hpre Hfuel.
  - rewrite app_nil_r in Hpre. subst pre. cbn [app].
    destruct fuel as [|fuel]; [cbn in Hfuel; lia|]. cbn [up_scan].
    rewrite nth_error_middle, Hj, String.eqb_refl.
    rewrite length_app. cbn [List.length].
    replace (List.length a + 1 =? 0)%nat with false
      by (symmetry; apply Nat.eqb_neq; lia).
    cbn [andb negb].
    replace (List.length a + 1)%nat with (List.length (a ++ [p]))
      by (rewrite length_app; reflexivity).
    rewrite pop_middle.
    replace (List.length (a ++ [p]) - 1)%nat with (List.length a)
      by (rewrite length_app; cbn; lia).
    rewrite <- app_assoc. cbn [app]. rewrite insert_middle.
    apply up_scan_idle.
    replace (a ++ j :: p :: b) with ((a ++ [j]) ++ p :: b)
      by (rewrite <- app_assoc; reflexivity).
    rewrite skipn_past by (rewrite !length_app; reflexivity).
    exact Hb.
  - destruct fuel as [|fuel]; [cbn in Hfuel; lia|]. cbn [up_scan app].
    rewrite nth_error_middle.
    destruct (String.eqb_spec (uuid m) job_id) as [He|_].
    + exfalso. apply (Hmid m); [left; reflexivity | exact He].
    + cbn [andb].
      replace (pre ++ m :: mid ++ j :: b) with ((pre ++ [m]) ++ mid ++ j :: b)
        by (rewrite <- app_assoc; reflexivity).
      replace (S (List.length pre)) with (List.length (pre ++ [m]))
        by (rewrite length_app; cbn; lia).
      apply IH.
      * intros x Hx. apply Hmid. right. exact Hx.
      * rewrite <- app_assoc. exact Hpre.
      * cbn in Hfuel. lia.
Qed.

(** The walk of "DOWN" from place [length pre], with [mid] before the
    job: once found, the job is met again at every next place. *)
Lemma down_scan_walk (job_id : string) (j : job) (b mid pre : list job)
    (fuel : nat) :
  uuid j = job_id ->
  (forall x, In x mid -> uuid x <> job_id) ->
  (forall x, In x b -> uuid x <> job_id) ->
  (List.length mid + List.length b < fuel)%nat ->
  down_scan fuel job_id (List.length pre) (pre ++ mid ++ j :: b)
  = pre ++ mid ++ b ++ [j].
Proof.
  intros Hj Hmid Hb. revert pre fuel.
  induction mid as [|m mid IH]; intros pre fuel Hfuel.
  - cbn [app]. clear Hmid. revert pre fuel Hfuel.
    induction b as [|b1 b IHb]; intros pre fuel Hfuel.
    + destruct fuel as [|fuel]; [cbn in Hfuel; lia|]. cbn [down_scan app].
      rewrite nth_error_middle, Hj, String.eqb_refl.
      rewrite length_app. cbn [List.length].
      replace (List.length pre =? List.length pre + 1 - 1)%nat with true
        by (symmetry; apply Nat.eqb_eq; lia).
      cbn [andb negb]. apply down_scan_idle.
      rewrite skipn_past by reflexivity. intros x [].
    + destruct fuel as [|fuel]; [cbn in Hfuel; lia|]. cbn [down_scan].
      rewrite nth_error_middle, Hj, String.eqb_refl.
      rewrite length_app. cbn [List.length].
      replace (List.length pre =? List.length pre + S (S (List.length b)) - 1)%nat
        with false by (symmetry; apply Nat.eqb_neq; lia).
      cbn [andb negb]. rewrite pop_middle.
      replace (pre ++ b1 :: b) with ((pre ++ [b1]) ++ b)
        by (rewrite <- app_assoc; reflexivity).
      replace (List.length pre + 1)%nat with (List.length (pre ++ [b1]))
        by (rewrite length_app; reflexivity).
      rewrite insert_middle.
      replace (S (List.length pre)) with (List.length (pre ++ [b1]))
        by (rewrite length_app; cbn; lia).
      rewrite IHb.
      * rewrite <- app_assoc. reflexivity.
      * intros x Hx. apply Hb. right. exact Hx.
      * cbn in Hfuel |- *. lia.
  - destruct fuel as [|fuel]; [cbn in Hfuel; lia|]. cbn [down_scan app].
    rewrite nth_error_middle.
    destruct (String.eqb_spec (uuid m) job_id) as [He|_].
    + exfalso. apply (Hmid m); [left; reflexivity | exact He].
    + cbn [andb].
      replace (pre ++ m :: mid ++ j :: b) with ((pre ++ [m]) ++ mid ++ j :: b)
        by (rewrite <- app_assoc; reflexivity).
      replace (S (List.length pre)) with (List.length (pre ++ [m]))
        by (rewrite length_app; cbn; lia).
      rewrite IH.
      * rewrite <- app_assoc. reflexivity.
      * intros x Hx. apply Hmid. right. exact Hx.
      * cbn in Hfuel. lia.
Qed.

(** In a list with distinct ids the jobs around a job do not carry its
    id. *)
Lemma others_differ (a b : list job) (j : job) :
  NoDup (map uuid (a ++ j :: b)) ->
  (forall x, In x a -> uuid x <> uuid j)
  /\ (forall x, In x b -> uuid x <> uuid j).
Proof.
  rewrite map_app. cbn [map]. intro H.
  pose proof (NoDup_remove_2 _ _ _ H) as Hnot.
  split; intros x Hx He; apply Hnot, in_or_app;
    [left | right]; rewrite <- He; apply in_map, Hx.
Qed.

End MoveFacts.

Module ScenesFacts.

Lemma three_distinct :
  NoDup (map Jobs.uuid [Fixtures.job_b; Fixtures.running_a; Scenes.job_c]).
Proof.
  cbn. repeat constructor; cbn; intuition discriminate.
Qed.

Lemma two_distinct :
  NoDup (map Jobs.uuid [Fixtures.running_a; Fixtures.job_b]).
Proof.
  cbn. repeat constructor; cbn; intuition discriminate.
Qed.

End ScenesFacts.

(** X1: "UP" on the line of a job that is not the first puts the job
    before the one that preceded it and leaves the rest of the list in
    place; on the line of the first job of a list of two or more the list
    stays as it is.  In both cases the queue is rebuilt. *)
Theorem up_swaps_with_predecessor :
  forall (s : Sys.state) (j : Jobs.job),
    NoDup (map Jobs.uuid (Sys.encode_list s)) ->
    Sys.is_uuid_hex (Jobs.uuid j) = true ->
    Sys.gui s = Sys.GIdle ->
    (forall a p b,
       Sys.encode_list s = (a ++ p :: j :: b)%list ->
       Sys.gui_step (Sys.Up [Jobs.display j]) s
       = Some (Sys.rebuild (a ++ j :: p :: b)%list s))
    /\ (forall p b,
          Sys.encode_list s = j :: p :: b ->
          Sys.gui_step (Sys.Up [Jobs.display j]) s
          = Some (Sys.rebuild (j :: p :: b) s)).
Proof.
  intros s j Hnd Hhex Hidle. unfold Sys.gui_step. rewrite Hidle.
  cbn [Sys.handle Jobs.single_selection].
  rewrite (JobsFacts.last_word_display j Hhex). split.
  - intros a p b Hl. rewrite Hl in *.
    replace (1 <? List.length (a ++ p :: j :: b))%nat with true
      by (symmetry; apply Nat.ltb_lt; rewrite length_app; cbn; lia).
    cbn [Py.bind]. do 2 f_equal.
    replace (a ++ p :: j :: b)%list with ((a ++ [p]) ++ j :: b)%list in *
      by (rewrite <- app_assoc; reflexivity).
    destruct (MoveFacts.others_differ _ _ _ Hnd) as [Ha Hb].
    apply (MoveFacts.up_scan_walk (Jobs.uuid j) j p b (a ++ [p]) [] a);
      auto.
    rewrite !length_app. cbn. lia.
  - intros p b Hl. rewrite Hl in *. cbn [List.length Nat.ltb Nat.leb Py.bind].
    do 2 f_equal. remember (S (List.length b)) as fuel.
    cbn [Jobs.up_scan nth_error].
    rewrite String.eqb_refl. cbn [Nat.eqb negb andb].
    apply MoveFacts.up_scan_idle. cbn [skipn].
    destruct (MoveFacts.others_differ [] _ _ Hnd) as [_ Hb]. exact Hb.
Qed.

Lemma up_swaps_with_predecessor_witness :
  Sys.gui_step (Sys.Up [Jobs.display Fixtures.job_b])
    (Scenes.showing [Fixtures.running_a; Fixtures.job_b])
  = Some (Sys.rebuild [Fixtures.job_b; Fixtures.running_a]
            (Scenes.showing [Fixtures.running_a; Fixtures.job_b])).
Proof.
  exact (proj1 (up_swaps_with_predecessor
                  (Scenes.showing [Fixtures.running_a; Fixtures.job_b])
                  Fixtures.job_b ScenesFacts.two_distinct eq_refl eq_refl)
           [] Fixtures.running_a [] eq_refl).
Defined.

(** X2: "DOWN" on the line of a job does not stop at the next place: the
    job is met again at each place it is moved to, and ends as the last
    job of the list, the other jobs keeping their order. *)
Theorem down_moves_to_the_end :
  forall (s : Sys.state) (j : Jobs.job) (a b : list Jobs.job),
    Sys.encode_list s = (a ++ j :: b)%list ->
    (1 < List.length (Sys.encode_list s))%nat ->
    NoDup (map Jobs.uuid (Sys.encode_list s)) ->
    Sys.is_uuid_hex (Jobs.uuid j) = true ->
    Sys.gui s = Sys.GIdle ->
    Sys.gui_step (Sys.Down [Jobs.display j]) s
    = Some (Sys.rebuild (a ++ b ++ [j])%list s).
Proof.
  intros s j a b Hl Hlen Hnd Hhex Hidle. unfold Sys.gui_step. rewrite Hidle.
  cbn [Sys.handle Jobs.single_selection].
  rewrite (JobsFacts.last_word_display j Hhex).
  apply Nat.ltb_lt in Hlen. rewrite Hlen. cbn [Py.bind]. do 2 f_equal.
  rewrite Hl in *.
  destruct (MoveFacts.others_differ _ _ _ Hnd) as [Ha Hb].
  apply (MoveFacts.down_scan_walk (Jobs.uuid j) j b a []); auto.
  rewrite length_app. cbn. lia.
Qed.

Lemma down_moves_to_the_end_witness :
  Sys.gui_step (Sys.Down [Jobs.display Fixtures.job_b])
    (Scenes.showing [Fixtures.job_b; Fixtures.running_a; Scenes.job_c])
  = Some (Sys.rebuild [Fixtures.running_a; Scenes.job_c; Fixtures.job_b]
            (Scenes.showing [Fixtures.job_b; Fixtures.running_a; Scenes.job_c])).
Proof.
  refine (down_moves_to_the_end
            (Scenes.showing [Fixtures.job_b; Fixtures.running_a; Scenes.job_c])
            Fixtures.job_b [] [Fixtures.running_a; Scenes.job_c]
            eq_refl _ _ eq_refl eq_refl).
  - cbn. lia.
  - exact ScenesFacts.three_distinct.
Defined.

(** X3: "UP" and "DOWN" only reorder: whatever is selected, the list after
    the handler holds the same jobs, each as often as before and with its
    status untouched. *)
Theorem moves_keep_the_jobs :
  forall (s s' : Sys.state) (selected : list string),
    Sys.gui s = Sys.GIdle ->
    Sys.gui_step (Sys.Up selected) s = Some s'
    \/ Sys.gui_step (Sys.Down selected) s = Some s' ->
    Permutation (Sys.encode_list s) (Sys.encode_list s').
Proof.
  intros s s' selected Hidle Hstep. unfold Sys.gui_step in Hstep.
  rewrite Hidle in Hstep. cbn [Sys.handle] in Hstep.
  destruct (Jobs.single_selection selected (Sys.encode_list s))
    as [[job_id|]|e]; destruct Hstep as [H|H]; try discriminate H;
    injection H as <-; cbn; try reflexivity.
  - apply MoveFacts.up_scan_perm.
  - apply MoveFacts.down_scan_perm.
Qed.

Lemma moves_keep_the_jobs_witness :
  Permutation [Fixtures.job_b; Fixtures.running_a; Scenes.job_c]
              [Fixtures.running_a; Scenes.job_c; Fixtures.job_b].
Proof.
  exact (moves_keep_the_jobs
           (Scenes.showing [Fixtures.job_b; Fixtures.running_a; Scenes.job_c])
           (Sys.rebuild [Fixtures.running_a; Scenes.job_c; Fixtures.job_b]
              (Scenes.showing
                 [Fixtures.job_b; Fixtures.running_a; Scenes.job_c]))
           [Jobs.display Fixtures.job_b] eq_refl (or_intror eq_refl)).
Defined.

Module RemoveFacts.

Import Jobs.
Local Open Scope list_scope.

Lemma filter_twice (p q : job -> bool) (l : list job) :
  filter q (filter p l) = filter (fun x => p x && q x) l.
Proof.
  induction l as [|y l IH]; cbn; [reflexivity|].
  destruct (p y); cbn; [destruct (q y); now rewrite IH | exact IH].
Qed.

(** What "Remove task" keeps when the lines of the jobs [js] are
    selected. *)
Lemma kept_all (js : list job) (l : list job) :
  NoDup (map uuid l) ->
  Forall (fun j => Sys.is_uuid_hex (uuid j) = true) js ->
  remove_task (map display js) l
  = Returned (filter (fun x => negb (Sys.uuid_in (uuid x) js
                                     && negb (String.eqb (status x) started)))
                     l).
Proof.
  intros Hnd Hjs. revert l Hnd.
  induction Hjs as [|j js Hj Hjs IH]; intros l Hnd.
  - cbn. f_equal. symmetry. apply JobsFacts.filter_all. reflexivity.
  - cbn [map remove_task]. rewrite (JobsFacts.last_word_display j Hj).
    cbn [Py.bind]. rewrite (JobsFacts.remove_one_filter _ _ Hnd).
    rewrite IH.
    + f_equal. rewrite filter_twice. apply filter_ext. intro x.
      unfold kept, Sys.uuid_in. cbn [existsb].
      rewrite (String.eqb_sym (uuid j) (uuid x)).
      destruct (String.eqb (uuid x) (uuid j));
        destruct (existsb _ js);
        destruct (String.eqb (status x) started); reflexivity.
    + rewrite <- (JobsFacts.remove_one_filter _ _ Hnd).
      apply JobsFacts.remove_scan_NoDup, Hnd.
Qed.

Lemma apply_event_unknown (u ev : string) (l : list job) :
  ~ In u (map uuid l) -> apply_event u ev l = l.
Proof.
  unfold apply_event. induction l as [|y l IH]; cbn; intro H;
    [reflexivity|].
  destruct (String.eqb_spec (uuid y) u) as [He|_];
    [exfalso; apply H; left; exact He|].
  f_equal. apply IH. intro Hin. apply H. right. exact Hin.
Qed.

Lemma apply_event_known (ev : string) (a b : list job) (j : job) :
  NoDup (map uuid (a ++ j :: b)) ->
  apply_event (uuid j) ev (a ++ j :: b) = a ++ set_status ev j :: b.
Proof.
  intro Hnd. rewrite map_app in Hnd. cbn [map] in Hnd.
  pose proof (NoDup_remove_2 _ _ _ Hnd) as Hnot.
  unfold apply_event. rewrite map_app. cbn [map].
  rewrite String.eqb_refl.
  fold (apply_event (uuid j) ev a). fold (apply_event (uuid j) ev b).
  rewrite !apply_event_unknown; [reflexivity | |];
    intro Hin; apply Hnot, in_or_app; auto.
Qed.

End RemoveFacts.

(** X4: "Remove task" with several lines selected removes exactly the
    jobs whose id is that of a selected line and which are not shown as
    started; all other jobs stay, in their order. *)
Theorem remove_selected_jobs :
  forall (l js : list Jobs.job),
    NoDup (map Jobs.uuid l) ->
    Forall (fun j => Sys.is_uuid_hex (Jobs.uuid j) = true) js ->
    Jobs.remove_task (map Jobs.display js) l
    = Returned
        (filter (fun x => negb (Sys.uuid_in (Jobs.uuid x) js
                                && negb (String.eqb (Jobs.status x)
                                                    Jobs.started)))
                l).
Proof. intros l js. apply RemoveFacts.kept_all. Qed.

Lemma remove_selected_jobs_witness :
  Jobs.remove_task
    (map Jobs.display [Fixtures.job_b; Fixtures.running_a; Scenes.job_c])
    [Fixtures.job_b; Fixtures.running_a; Scenes.job_c]
  = Returned [Fixtures.running_a].
Proof.
  refine (remove_selected_jobs
            [Fixtures.job_b; Fixtures.running_a; Scenes.job_c]
            [Fixtures.job_b; Fixtures.running_a; Scenes.job_c]
            ScenesFacts.three_distinct _).
  repeat constructor.
Defined.

(** X5: the id read back from the line shown for a job (the last word of
    the line) is the id of the job, whatever its title and status hold,
    white space included. *)
Theorem job_id_read_back_from_line :
  forall j : Jobs.job,
    Sys.is_uuid_hex (Jobs.uuid j) = true ->
    Jobs.last_word (Jobs.display j) = Returned (Jobs.uuid j).
Proof. intros j Hj. apply JobsFacts.last_word_display, Hj. Qed.

Lemma job_id_read_back_from_line_witness :
  Jobs.last_word
    (Jobs.display (Jobs.Job "my film - final cut.mkv" Fixtures.id_a
                     Jobs.started "a.mkv" [] None))
  = Returned Fixtures.id_a.
Proof.
  exact (job_id_read_back_from_line
           (Jobs.Job "my film - final cut.mkv" Fixtures.id_a
              Jobs.started "a.mkv" [] None) eq_refl).
Defined.

(** X6: a job event sets the status of the job that carries its id and of
    no other job; an event for an id that no job of the list carries (the
    job was removed meanwhile) changes nothing. *)
Theorem job_event_updates_one_job :
  forall (ev : string) (a b : list Jobs.job) (j : Jobs.job) (u : string),
    NoDup (map Jobs.uuid (a ++ j :: b)) ->
    ~ In u (map Jobs.uuid (a ++ j :: b)) ->
    Jobs.apply_event (Jobs.uuid j) ev (a ++ j :: b)
    = (a ++ Jobs.set_status ev j :: b)%list
    /\ Jobs.apply_event u ev (a ++ j :: b) = (a ++ j :: b)%list.
Proof.
  intros ev a b j u Hnd Hu. split.
  - apply RemoveFacts.apply_event_known, Hnd.
  - apply RemoveFacts.apply_event_unknown, Hu.
Qed.

Lemma job_event_updates_one_job_witness :
  Jobs.apply_event Fixtures.id_b Jobs.started
    [Fixtures.finished_a; Fixtures.job_b]
  = [Fixtures.finished_a; Jobs.set_status Jobs.started Fixtures.job_b]
  /\ Jobs.apply_event Scenes.id_c Jobs.started
       [Fixtures.finished_a; Fixtures.job_b]
     = [Fixtures.finished_a; Fixtures.job_b].
Proof.
  refine (job_event_updates_one_job Jobs.started [Fixtures.finished_a] []
            Fixtures.job_b Scenes.id_c _ _).
  - cbn. repeat constructor; cbn; intuition discriminate.
  - cbn. intuition discriminate.
Defined.

(** ** The queue as the handlers leave it, and the phases of a job *)

Module PhaseFacts.

Import Jobs Progress Sys Phases.
Local Open Scope list_scope.

Lemma puts_complete (todo : list job) (s : state) :
  gui s = building todo ->
  run (repeat (Gui Continue) (List.length todo)) s
  = Some (State (encode_list s) (video_metadata s)
            (encode_queue s ++ map Params todo) (encode_event s)
            (gui_queue s) (status_deque s) (stoprequest s) (encode_running s)
            (encode_queue_active s) (worker s) GIdle).
Proof.
  revert s. induction todo as [|j todo IH]; intros s Hg.
  - cbn in *. rewrite app_nil_r. destruct s; cbn in *. now subst.
  - cbn [List.length repeat run step]. unfold gui_step.
    unfold building in Hg. rewrite Hg.
    rewrite IH by reflexivity. cbn. rewrite <- app_assoc. reflexivity.
Qed.

(** The [for] loop over the output, up to and with the line it breaks
    on. *)
Lemma preamble_run (j : job) (total : Z) (out : list string) (msg : string)
    (ws : list world) (s : state) :
  worker s = WPreamble j total out msg ->
  List.length ws = S (List.length (banner out)) ->
  job_run ws s
  = Some (moved (WProgress j total (after_banner out) 0)
                (gui_queue s ++ [Text "START ENCODE VIDEO"])
                (status_deque s) s).
Proof.
  revert msg ws s. induction out as [|line rest IH]; intros msg ws s Hpc Hlen.
  - destruct ws as [|w [|w' ws]]; try discriminate Hlen.
    cbn [job_run]. rewrite Hpc. cbn [in_job]. unfold worker_step.
    rewrite Hpc. reflexivity.
  - cbn [banner after_banner] in *.
    destruct (is_progress_line line) eqn:Hline.
    + destruct ws as [|w [|w' ws]]; try discriminate Hlen.
      cbn [job_run]. rewrite Hpc. cbn [in_job]. unfold worker_step.
      rewrite Hpc, Hline. reflexivity.
    + destruct ws as [|w ws]; [discriminate Hlen|].
      cbn [job_run]. rewrite Hpc. cbn [in_job]. unfold worker_step at 1.
      rewrite Hpc, Hline.
      rewrite (IH (msg ++ Str.strip line ++ newline)%string ws);
        [reflexivity | reflexivity | cbn in Hlen; lia].
Qed.

(** One turn of the progress loop on a line that is treated. *)
Lemma progress_turn (j : job) (total d : Z) (line : string)
    (rest : list string) (w : world) (s : state) (d' : Z) (smp : sample) :
  worker s = WProgress j total (line :: rest) d ->
  stoprequest s = false ->
  is_progress_line line = true ->
  process_line total (clock1 w) (clock2 w) line = Returned (d', smp) ->
  worker_step w s
  = Some (moved (WProgress j total rest d') (gui_queue s) (Some (Stats smp)) s).
Proof.
  intros Hpc Hstop Hline Hp. unfold worker_step, moved.
  rewrite Hpc, Hstop, Hline, Hp. reflexivity.
Qed.

(** The progress loop over lines that are all treated, the last of them
    [line]: what is left is the count and the sample of [line]. *)
Lemma progress_run (j : job) (total : Z) (lines : list string)
    (line : string) (tail : list string) (ws : list world) (w : world)
    (d d' : Z) (smp : sample) (s : state) :
  worker s = WProgress j total (lines ++ line :: tail) d ->
  stoprequest s = false ->
  treated total ws lines ->
  is_progress_line line = true ->
  process_line total (clock1 w) (clock2 w) line = Returned (d', smp) ->
  job_run (ws ++ [w]) s
  = Some (moved (WProgress j total tail d') (gui_queue s)
                (Some (Stats smp)) s).
Proof.
  revert ws d s. induction lines as [|l0 lines IH]; intros ws d s Hpc Hstop Ht
    Hline Hp.
  - destruct ws; [|contradiction]. cbn [app job_run].
    rewrite Hpc. cbn [in_job].
    rewrite (progress_turn j total d line tail w s d' smp); auto.
  - destruct ws as [|w0 ws]; [contradiction|].
    destruct Ht as (Hl0 & [[d0 smp0] Hp0] & Ht).
    cbn [app job_run]. rewrite Hpc. cbn [in_job].
    rewrite (progress_turn j total d l0 (lines ++ line :: tail) w0 s d0 smp0);
      auto.
    rewrite (IH ws d0); auto.
Qed.

End PhaseFacts.

(** X7: [build_encode_queue], run to its end without the worker taking
    anything meanwhile, leaves on [encode_queue] exactly the jobs of the
    list shown as waiting, in the order of the list: whatever was on the
    queue before, a [_skip] included, is gone, and no job of another
    status is put. *)
Theorem queue_after_rebuild :
  forall (l : list Jobs.job) (s : Sys.state),
    Sys.run (repeat (Sys.Gui Sys.Continue)
               (List.length (Jobs.waiting_jobs l)))
            (Sys.rebuild l s)
    = Some (Sys.State l (Sys.video_metadata s)
              (map Sys.Params (Jobs.waiting_jobs l)) (Sys.encode_event s)
              (Sys.gui_queue s) (Sys.status_deque s) (Sys.stoprequest s)
              (Sys.encode_running s) (Sys.encode_queue_active s)
              (Sys.worker s) Sys.GIdle).
Proof.
  intros l s. rewrite PhaseFacts.puts_complete; reflexivity.
Qed.

(** X8: the [for] loop over the output of the encoder reads up to and
    with the first progress line, or to the end of the output where there
    is none.  That first progress line is dropped: it is not treated, no
    sample is put for it, and the count of done frames starts at zero.
    The queue of the GUI receives the fixed text alone, whatever was
    gathered. *)
Theorem preamble_drops_first_progress_line :
  forall (j : Jobs.job) (total : Z) (out : list string) (msg : string)
         (ws : list Sys.world) (s : Sys.state),
    Sys.worker s = Sys.WPreamble j total out msg ->
    List.length ws = S (List.length (Phases.banner out)) ->
    Sys.job_run ws s
    = Some (Phases.moved
              (Sys.WProgress j total (Phases.after_banner out) 0)
              (Sys.gui_queue s ++ [Sys.Text "START ENCODE VIDEO"])%list
              (Sys.status_deque s) s).
Proof. exact PhaseFacts.preamble_run. Qed.

Lemma preamble_drops_first_progress_line_witness :
  Sys.job_run (repeat Fixtures.calm 2) Fixtures.busy
  = Some (Phases.moved
            (Sys.WProgress Fixtures.job_a 1000
               (skipn 3 Fixtures.encoder_output) 0)
            [Sys.Text "Found ffmpeg"; Sys.Text "START ENCODE VIDEO"]
            None Fixtures.busy).
Proof.
  exact (preamble_drops_first_progress_line Fixtures.job_a 1000
           (skipn 1 Fixtures.encoder_output)
           ("ffmpeg version 4.2.1" ++ Sys.newline)
           (repeat Fixtures.calm 2) Fixtures.busy eq_refl eq_refl).
Defined.

(** X9: after a run of progress lines that are all treated, the count of
    done frames and the sample on [status_deque] are those of the last
    line read alone: the deque keeps no earlier sample, and the queue of
    the GUI receives nothing. *)
Theorem progress_keeps_last_sample :
  forall (j : Jobs.job) (total : Z) (lines : list string) (line : string)
         (tail : list string) (ws : list Sys.world) (w : Sys.world)
         (d d' : Z) (smp : Progress.sample) (s : Sys.state),
    Sys.worker s = Sys.WProgress j total (lines ++ line :: tail)%list d ->
    Sys.stoprequest s = false ->
    Phases.treated total ws lines ->
    Progress.is_progress_line line = true ->
    Progress.process_line total (Sys.clock1 w) (Sys.clock2 w) line
    = Returned (d', smp) ->
    Sys.job_run (ws ++ [w])%list s
    = Some (Phases.moved (Sys.WProgress j total tail d') (Sys.gui_queue s)
              (Some (Sys.Stats smp)) s).
Proof. exact PhaseFacts.progress_run. Qed.

Lemma progress_keeps_last_sample_witness :
  Sys.job_run [Fixtures.calm; Fixtures.calm] Scenes.reading
  = Some (Phases.moved (Sys.WProgress Fixtures.job_a 1000 [] 240)
            (Sys.gui_queue Scenes.reading)
            (Some (Sys.Stats Scenes.sample_240)) Scenes.reading).
Proof.
  refine (progress_keeps_last_sample Fixtures.job_a 1000
            [(Fixtures.example_line ++ Sys.newline)%string]
            ("frame=  240 fps= 46 q=28.0 size=   20480kB time=00:00:10.00"
             ++ Sys.newline)%string
            [] [Fixtures.calm] Fixtures.calm 0 240 Scenes.sample_240
            Scenes.reading eq_refl eq_refl _ eq_refl _).
  - split; [reflexivity|]. split; [|exact I].
    eexists. vm_compute. reflexivity.
  - vm_compute. reflexivity.
Defined.

Module PauseFacts.

Import Jobs Progress Sys Phases.
Local Open Scope list_scope.

Lemma job_run_app (ws1 ws2 : list world) (s : state) :
  job_run (ws1 ++ ws2) s
  = match job_run ws1 s with
    | Some s' => job_run ws2 s'
    | None => None
    end.
Proof.
  revert s. induction ws1 as [|w ws1 IH]; intro s; cbn; [reflexivity|].
  destruct (in_job (worker s)); [|reflexivity].
  destruct (worker_step w s); [apply IH | reflexivity].
Qed.

Lemma waiting_jobs_app (l1 l2 : list job) :
  waiting_jobs (l1 ++ l2) = waiting_jobs l1 ++ waiting_jobs l2.
Proof. apply filter_app. Qed.

End PauseFacts.

(** X10: [_skip] lets the pause reach a worker that waits in [get()] on an
    empty queue: after "Pause queue" the worker takes [_skip], goes back
    to the head of its loop and waits for the flag, so that a job added
    later stays on the queue. *)
Theorem skip_wakes_waiting_worker :
  forall (s : Sys.state) (w : Sys.world) (job_id out : string)
         (cmd : list string) (test : option Z),
    Sys.worker s = Sys.WGet ->
    Sys.encode_queue s = [] ->
    Sys.encode_queue_active s = true ->
    Sys.gui s = Sys.GIdle ->
    Jobs.waiting_jobs (Sys.encode_list s) = [] ->
    Sys.md_contains_video (Sys.video_metadata s) = true ->
    Sys.is_uuid_hex job_id = true ->
    Sys.uuid_in job_id (Sys.encode_list s) = false ->
    exists s',
      Sys.run [Sys.Gui Sys.PauseQueue; Sys.Gui Sys.Continue;
               Sys.Worker w; Sys.Worker w;
               Sys.Gui (Sys.StartEncode job_id out cmd test);
               Sys.Gui Sys.Continue] s = Some s'
      /\ Sys.worker s' = Sys.WWait
      /\ Sys.encode_queue s'
         = [Sys.Params (Jobs.Job (Sys.md_name (Sys.video_metadata s)) job_id
                          Jobs.waiting out cmd test)]
      /\ Sys.worker_step w s' = None.
Proof.
  intros [l md q ev gq sd stop running act pc g] w job_id out cmd test.
  cbn [Sys.worker Sys.encode_queue Sys.encode_queue_active Sys.gui
       Sys.encode_list Sys.video_metadata].
  intros -> -> -> -> Hwait Hvideo Hhex Hfresh.
  cbn [Sys.run Sys.step Sys.gui_step Sys.handle Sys.gui Sys.set_active
       Sys.put_item Sys.worker_step Sys.worker Sys.encode_queue
       Sys.encode_queue_active Sys.encode_list Sys.video_metadata
       Sys.encode_event Sys.gui_queue Sys.status_deque Sys.stoprequest
       Sys.encode_running negb app Sys.after_get Sys.set_worker].
  rewrite Hvideo, Hhex, Hfresh. cbn [negb andb].
  unfold Sys.gui_step, Sys.rebuild, Sys.set_worker.
  cbn [Sys.gui Sys.encode_list Sys.worker].
  rewrite PauseFacts.waiting_jobs_app, Hwait.
  cbn. eexists. repeat split.
Qed.

Lemma skip_wakes_waiting_worker_witness :
  exists s',
    Sys.run [Sys.Gui Sys.PauseQueue; Sys.Gui Sys.Continue;
             Sys.Worker Fixtures.calm; Sys.Worker Fixtures.calm;
             Sys.Gui (Sys.StartEncode Fixtures.id_b "b.mkv" ["ffmpeg"] None);
             Sys.Gui Sys.Continue] Scenes.waiting_in_get = Some s'
    /\ Sys.worker s' = Sys.WWait
    /\ Sys.encode_queue s' = [Sys.Params Fixtures.job_b]
    /\ Sys.worker_step Fixtures.calm s' = None.
Proof.
  exact (skip_wakes_waiting_worker Scenes.waiting_in_get Fixtures.calm
           Fixtures.id_b "b.mkv" ["ffmpeg"] None
           eq_refl eq_refl eq_refl eq_refl eq_refl eq_refl eq_refl eq_refl).
Defined.

(** X11: "Stop encode" with no encode running clears the flag of the
    queue but puts no [_skip]: a worker that waits in [get()] stays there
    and takes the next job added although the queue is paused, and
    [stoprequest] is still set when it does. *)
Theorem stop_does_not_hold_waiting_worker :
  forall (s : Sys.state) (w : Sys.world) (job_id out : string)
         (cmd : list string) (test : option Z),
    Sys.worker s = Sys.WGet ->
    Sys.encode_queue s = [] ->
    Sys.gui s = Sys.GIdle ->
    Jobs.waiting_jobs (Sys.encode_list s) = [] ->
    Sys.md_contains_video (Sys.video_metadata s) = true ->
    Sys.is_uuid_hex job_id = true ->
    Sys.uuid_in job_id (Sys.encode_list s) = false ->
    exists s',
      Sys.run [Sys.Gui Sys.StopEncode; Sys.Gui Sys.Continue;
               Sys.Gui (Sys.StartEncode job_id out cmd test);
               Sys.Gui Sys.Continue; Sys.Worker w] s = Some s'
      /\ Sys.worker s'
         = Sys.WParams (Jobs.Job (Sys.md_name (Sys.video_metadata s)) job_id
                          Jobs.waiting out cmd test)
      /\ Sys.encode_queue s' = []
      /\ Sys.encode_queue_active s' = false
      /\ Sys.stoprequest s' = true.
Proof.
  intros [l md q ev gq sd stop running act pc g] w job_id out cmd test.
  cbn [Sys.worker Sys.encode_queue Sys.encode_queue_active Sys.gui
       Sys.encode_list Sys.video_metadata].
  intros -> -> -> Hwait Hvideo Hhex Hfresh.
  cbn [Sys.run Sys.step Sys.gui_step Sys.handle Sys.gui Sys.set_active
       Sys.set_stoprequest Sys.encode_list Sys.video_metadata
       Sys.encode_queue Sys.encode_event Sys.gui_queue Sys.status_deque
       Sys.stoprequest Sys.encode_running Sys.encode_queue_active
       Sys.worker].
  rewrite Hvideo, Hhex, Hfresh. cbn [negb andb].
  unfold Sys.gui_step, Sys.rebuild, Sys.set_worker.
  cbn [Sys.gui Sys.encode_list Sys.worker].
  rewrite PauseFacts.waiting_jobs_app, Hwait.
  cbn. eexists. repeat split.
Qed.

Lemma stop_does_not_hold_waiting_worker_witness :
  exists s',
    Sys.run [Sys.Gui Sys.StopEncode; Sys.Gui Sys.Continue;
             Sys.Gui (Sys.StartEncode Fixtures.id_b "b.mkv" ["ffmpeg"] None);
             Sys.Gui Sys.Continue; Sys.Worker Fixtures.calm]
            Scenes.waiting_in_get = Some s'
    /\ Sys.worker s' = Sys.WParams Fixtures.job_b
    /\ Sys.encode_queue s' = []
    /\ Sys.encode_queue_active s' = false
    /\ Sys.stoprequest s' = true.
Proof.
  exact (stop_does_not_hold_waiting_worker Scenes.waiting_in_get Fixtures.calm
           Fixtures.id_b "b.mkv" ["ffmpeg"] None
           eq_refl eq_refl eq_refl eq_refl eq_refl eq_refl eq_refl).
Defined.

(** X12: a stop request that is still set when the preamble of a job
    ends, because it was made while no encode was running or during the
    preamble, ends that job at once: whatever the encoder prints, no
    progress line is treated, no sample is put, and the job closes with
    zero frames done. *)
Theorem stale_stop_ends_next_job :
  forall (j : Jobs.job) (total : Z) (out : list string) (msg : string)
         (ws : list Sys.world) (w : Sys.world) (s : Sys.state),
    Sys.worker s = Sys.WPreamble j total out msg ->
    Sys.stoprequest s = true ->
    List.length ws = S (List.length (Phases.banner out)) ->
    Sys.job_run (ws ++ [w])%list s
    = Some (Phases.moved (Sys.WInspect j 0)
              (Sys.gui_queue s
               ++ [Sys.Text "START ENCODE VIDEO";
                   Sys.Text "Reiceived kill signal, stopping..."])%list
              (Sys.status_deque s) s).
Proof.
  intros j total out msg ws w s Hpc Hstop Hlen.
  rewrite PauseFacts.job_run_app.
  rewrite (PhaseFacts.preamble_run j total out msg ws s Hpc Hlen).
  unfold Phases.moved, Sys.job_run, Sys.worker_step.
  cbn [Sys.worker Sys.in_job Sys.stoprequest Sys.encode_list
       Sys.video_metadata Sys.encode_queue Sys.encode_event Sys.gui_queue
       Sys.status_deque Sys.encode_running Sys.encode_queue_active Sys.gui].
  rewrite Hstop, <- app_assoc. reflexivity.
Qed.

Lemma stale_stop_ends_next_job_witness :
  Sys.job_run (repeat Fixtures.calm 3)
    (Sys.set_stoprequest Sys.GIdle Fixtures.busy)
  = Some (Phases.moved (Sys.WInspect Fixtures.job_a 0)
            [Sys.Text "Found ffmpeg"; Sys.Text "START ENCODE VIDEO";
             Sys.Text "Reiceived kill signal, stopping..."]
            None (Sys.set_stoprequest Sys.GIdle Fixtures.busy)).
Proof.
  exact (stale_stop_ends_next_job Fixtures.job_a 1000
           (skipn 1 Fixtures.encoder_output)
           ("ffmpeg version 4.2.1" ++ Sys.newline)
           (repeat Fixtures.calm 2) Fixtures.calm
           (Sys.set_stoprequest Sys.GIdle Fixtures.busy)
           eq_refl eq_refl eq_refl).
Defined.

Module DrawsFacts.

Import Jobs Sys Draws.
Local Open Scope list_scope.

Lemma uuid_in_true (u : string) (l : list job) :
  uuid_in u l = true -> In u (map uuid l).
Proof.
  unfold uuid_in. intro H. apply existsb_exists in H as [x [Hx He]].
  apply String.eqb_eq in He. subst u. apply in_map, Hx.
Qed.

(** With a fresh draw "Start encode" does what the step of [Sys] does. *)
Lemma fresh_step (a : action) (s : state) :
  fresh_draw a s = true -> step_drawn a s = step a s.
Proof.
  destruct a as [w|g]; [reflexivity|].
  unfold fresh_draw, step_drawn, step, gui_step_drawn, gui_step.
  destruct (gui s); try reflexivity.
  destruct g; try reflexivity.
  cbn [handle_drawn handle].
  destruct (md_contains_video (video_metadata s)); [|reflexivity].
  cbn [negb orb]. intros ->. reflexivity.
Qed.

Lemma fresh_run (t : list action) (s : state) :
  fresh_draws t s = true -> run_drawn t s = run t s.
Proof.
  revert s. induction t as [|a t IH]; intros s H; [reflexivity|].
  cbn [fresh_draws] in H. apply andb_prop in H as [Ha Ht].
  cbn [run_drawn run]. rewrite <- (fresh_step a s Ha).
  destruct (step_drawn a s) as [s'|]; [apply IH, Ht | reflexivity].
Qed.

End DrawsFacts.

(** X13: the ids of the jobs stay distinct as long as every id that "Start
    encode" draws is a [uuid4().hex] text that no job of the list carries:
    then adding, removing and moving jobs and reading events never leave
    two jobs with one id.  The code itself makes no test: a draw that
    repeats an id of the list is appended all the same and leaves two jobs
    with that id. *)
Theorem job_ids_stay_distinct :
  (forall (t : list Sys.action) (s : Sys.state),
     Draws.run_drawn t Sys.initial = Some s ->
     Draws.fresh_draws t Sys.initial = true ->
     NoDup (map Jobs.uuid (Sys.encode_list s)))
  /\ (forall (s : Sys.state) (job_id out : string) (cmd : list string)
             (test : option Z),
        Sys.gui s = Sys.GIdle ->
        Sys.md_contains_video (Sys.video_metadata s) = true ->
        Sys.uuid_in job_id (Sys.encode_list s) = true ->
        exists s',
          Draws.step_drawn (Sys.Gui (Sys.StartEncode job_id out cmd test)) s
          = Some s'
          /\ ~ NoDup (map Jobs.uuid (Sys.encode_list s'))).
Proof.
  split.
  - intros t s Hrun Hfresh.
    rewrite (DrawsFacts.fresh_run t Sys.initial Hfresh) in Hrun.
    destruct (Invariant.reachable_consistent s (ex_intro _ t Hrun))
      as (_ & _ & _ & H & _).
    exact H.
  - intros s job_id out cmd test Hg Hv Hin.
    unfold Draws.step_drawn, Draws.gui_step_drawn. rewrite Hg.
    cbn [Draws.handle_drawn]. rewrite Hv.
    eexists. split; [reflexivity|].
    cbn [Sys.rebuild Sys.encode_list]. rewrite map_app. cbn [map Jobs.uuid].
    intro Hnd. apply NoDup_remove_2 in Hnd. apply Hnd.
    rewrite app_nil_r. apply DrawsFacts.uuid_in_true, Hin.
Qed.

Lemma job_ids_stay_distinct_witness :
  NoDup (map Jobs.uuid (Sys.encode_list Fixtures.leaving_with_jobs))
  /\ (exists s s',
        Draws.run_drawn Endings.same_id_twice Sys.initial = Some s'
        /\ Draws.run_drawn (removelast Endings.same_id_twice) Sys.initial
           = Some s
        /\ NoDup (map Jobs.uuid (Sys.encode_list s))
        /\ ~ NoDup (map Jobs.uuid (Sys.encode_list s'))).
Proof.
  destruct job_ids_stay_distinct as [Hfresh Hsame].
  split.
  - apply (Hfresh
             [Sys.Gui Sys.Launch; Sys.Gui (Sys.Input Fixtures.film);
              Sys.Gui Sys.PauseQueue; Sys.Gui Sys.Continue;
              Sys.Worker Fixtures.calm;
              Sys.Gui (Sys.StartEncode Fixtures.id_a "a.mkv" ["ffmpeg"] None);
              Sys.Gui Sys.Continue;
              Sys.Gui (Sys.StartEncode Fixtures.id_b "b.mkv" ["ffmpeg"] None);
              Sys.Gui Sys.Continue; Sys.Gui Sys.Continue;
              Sys.Gui Sys.Exit; Sys.Gui Sys.Continue]);
      vm_compute; reflexivity.
  - destruct (Draws.run_drawn (removelast Endings.same_id_twice) Sys.initial)
      as [s|] eqn:Hs; [|vm_compute in Hs; discriminate Hs].
    destruct (Hsame s Fixtures.id_a "b.mkv" ["ffmpeg"] None) as (s' & H1 & H2).
    + vm_compute in Hs. injection Hs as <-. reflexivity.
    + vm_compute in Hs. injection Hs as <-. reflexivity.
    + vm_compute in Hs. injection Hs as <-. reflexivity.
    + exists s, s'. split; [|split; [reflexivity|split; [|exact H2]]].
      * vm_compute in Hs. injection Hs as <-. vm_compute in H1.
        injection H1 as <-. vm_compute. reflexivity.
      * apply (Hfresh (removelast Endings.same_id_twice)); [exact Hs|].
        vm_compute. reflexivity.
Defined.

(** X14: in every state the program reaches, the events waiting on
    [encode_event] come in order: read from the oldest, a start is
    followed by the finish of the same job and by nothing else, and where
    the worker is inside a job the last event put is the start of that
    job. *)
Theorem job_events_come_in_pairs :
  forall s : Sys.state,
    Sys.reachable s ->
    exists open : option string,
      Sys.alternates open (Sys.encode_event s)
      /\ Sys.worker_agrees (Sys.worker s)
           (Sys.last_open open (Sys.encode_event s)).
Proof.
  intros s Hs.
  destruct (Invariant.reachable_consistent s Hs) as (o & H1 & _ & _ & H2).
  exists o. auto.
Qed.

Lemma job_events_come_in_pairs_witness :
  exists open : option string,
    Sys.alternates open (Sys.encode_event Fixtures.one_running)
    /\ Sys.worker_agrees (Sys.worker Fixtures.one_running)
         (Sys.last_open open (Sys.encode_event Fixtures.one_running)).
Proof.
  apply job_events_come_in_pairs.
  exists (Fixtures.add_one Fixtures.film
          ++ [Sys.Worker Fixtures.calm; Sys.Gui Sys.PollEvent])%list.
  vm_compute. reflexivity.
Defined.

(** ** The form and the command line *)

Module FormFacts.

Import Form.
Local Open Scope list_scope.










(** The command cut at a place of the list it is filtered from. *)
Lemma filter_split (n : nat) (l : list string) :
  filter truthy l = filter truthy (firstn n l) ++ filter truthy (skipn n l).
Proof. rewrite <- filter_app, firstn_skipn. reflexivity. Qed.

End FormFacts.

(** X15: [check_paths] never puts its message for a missing encoder.  Where
    [ffmpeg_path] does not exist or is no file, the text is built by adding
    a [Path] to a [str], which raises [TypeError] before anything is put on
    [gui_queue]; where it is found the one message put is "Found
    ffmpeg". *)
Theorem missing_encoder_is_not_reported :
  forall (found is_file : bool) (absolute : string)
         (gui_queue : list Sys.message),
    Form.check_paths found is_file absolute gui_queue
    = (if found && is_file
       then Returned (gui_queue ++ [Sys.Text "Found ffmpeg"])%list
       else Raised TypeError)
    /\ (forall q text,
          Form.check_paths found is_file absolute gui_queue = Returned q ->
          In (Sys.Text text) q ->
          In (Sys.Text text) gui_queue \/ text = "Found ffmpeg").
Proof.
  intros found is_file absolute gui_queue.
  assert (E : Form.check_paths found is_file absolute gui_queue
              = (if found && is_file
                 then Returned (gui_queue ++ [Sys.Text "Found ffmpeg"])%list
                 else Raised TypeError)).
  { destruct found, is_file; reflexivity. }
  split; [exact E|].
  intros q text Hq Hin. rewrite E in Hq.
  destruct (found && is_file); [|discriminate Hq].
  injection Hq as <-. apply in_app_or in Hin as [Hin|Hin]; [left; exact Hin|].
  right. destruct Hin as [Hin|[]]. congruence.
Qed.

(** X16: after an "Autocrop" that finds no crop, [params["crop"]] is the
    text "crop=" and every command built from the form carries the filter
    option followed by a filter list that ends in a crop filter without
    values. *)
Theorem failed_autocrop_leaves_empty_crop_filter :
  forall (path_text : string -> string) (p : Form.params),
    Form.enable_filters p = "-vf" ->
    Form.crop (Form.autocrop_event EmptyString p) = "crop="
    /\ exists (pre post : list string) (head : string),
         Form.format_command path_text (Form.autocrop_event EmptyString p)
         = (pre ++ "-vf" :: (head ++ "crop=")%string :: "-c:v" :: post)%list.
Proof.
  intros path_text p He. split; [reflexivity|].
  unfold Form.format_command.
  rewrite (FormFacts.filter_split 11).
  match goal with
  | |- context [(filter _ ?a ++ _)%list] => exists (filter Form.truthy a)
  end.
  cbn [skipn Form.autocrop_event Form.set_crop Form.crop
       Form.sharpen_mode Form.enable_filters Form.test_encode Form.n_frames
       Form.drc Form.qmin Form.qmax Form.qp Form.preset Form.output
       Form.input Form.start_time Form.end_time Form.skip_audio append].
  rewrite He.
  replace (Form.truthy (Form.sharpen_mode p) || Form.truthy "crop=")%bool
    with true by (destruct (Form.truthy (Form.sharpen_mode p)); reflexivity).
  match goal with
  | |- context [filter Form.truthy (_ :: _ :: "-c:v" :: ?r)] =>
      exists (filter Form.truthy r); generalize r; intro rest
  end.
  destruct (Form.sharpen_mode p) as [|c m].
  - exists EmptyString. reflexivity.
  - exists (String c m ++ ",")%string.
    rewrite JobsFacts.append_assoc. reflexivity.
Qed.

Lemma failed_autocrop_leaves_empty_crop_filter_witness :
  Form.crop (Form.autocrop_event EmptyString Forms.form) = "crop="
  /\ exists (pre post : list string) (head : string),
       Form.format_command Forms.as_is
         (Form.autocrop_event EmptyString Forms.form)
       = (pre ++ "-vf" :: (head ++ "crop=")%string :: "-c:v" :: post)%list.
Proof.
  exact (failed_autocrop_leaves_empty_crop_filter Forms.as_is Forms.form
           eq_refl).
Defined.



(** X18: with the test encode ticked and no digit in the frames field,
    "Start encode" adds no job: the [ValueError] of [int] is caught and the
    lists, queues and flags stay as they were; the command shown for the
    form then has [-vframes] directly followed by [-rc]. *)
Theorem empty_frames_field_adds_no_job :
  forall (path_text : string -> string) (ffmpeg job_id v : string)
         (p : Form.params) (s : Sys.state),
    Form.ascii_text v = true ->
    Form.keep_digits v = EmptyString ->
    Form.test_encode p = "-vframes" ->
    Form.start_encode path_text ffmpeg job_id (Form.test_frames_event v p) s
    = Some s
    /\ exists pre post : list string,
         Form.format_command path_text (Form.test_frames_event v p)
         = (pre ++ "-vframes" :: "-rc" :: post)%list.
Proof.
  intros path_text ffmpeg job_id v p s _ Hv Ht. split.
  - unfold Form.start_encode, Form.test_encode_of, Form.test_frames_event.
    cbn [Form.set_n_frames Form.test_encode Form.n_frames Form.input
         Form.output].
    rewrite Ht, Hv.
    destruct (Form.input p); [|reflexivity].
    destruct (negb (Form.truthy (Form.output p))); [reflexivity|].
    destruct (negb (Sys.md_contains_video (Sys.video_metadata s)));
      reflexivity.
  - unfold Form.format_command, Form.test_frames_event.
    rewrite (FormFacts.filter_split 15).
    cbn [firstn skipn Form.set_n_frames Form.crop
         Form.sharpen_mode Form.enable_filters Form.test_encode Form.n_frames
         Form.drc Form.qmin Form.qmax Form.qp Form.preset Form.output
         Form.input Form.start_time Form.end_time Form.skip_audio].
    rewrite Ht, Hv.
    match goal with
    | |- context [(filter _ ?a ++ filter _ (_ :: _ :: "-rc" :: ?r))%list] =>
        exists (filter Form.truthy a), (filter Form.truthy r)
    end.
    reflexivity.
Qed.

Lemma empty_frames_field_adds_no_job_witness :
  Form.start_encode Forms.as_is "ffmpeg_hevc.exe" Fixtures.id_a
    (Form.test_frames_event "all" Forms.form) Forms.ready
  = Some Forms.ready
  /\ exists pre post : list string,
       Form.format_command Forms.as_is (Form.test_frames_event "all" Forms.form)
       = (pre ++ "-vframes" :: "-rc" :: post)%list.
Proof.
  exact (empty_frames_field_adds_no_job Forms.as_is "ffmpeg_hevc.exe"
           Fixtures.id_a "all" Forms.form Forms.ready
           eq_refl eq_refl eq_refl).
Defined.

(** X19: the percentage of line 166 is exact at both ends: for every
    total that is not zero it is 0.0 with no frame done and 100.0 with all
    frames done. *)
Theorem percent_at_both_ends :
  forall total : Z,
    total <> 0%Z ->
    Progress.percent total 0 = Returned 0%float
    /\ Progress.percent total total = Returned 100%float.
Proof.
  intros total Hne.
  assert (Habs : (0 < Z.abs total)%Z) by lia.
  unfold Progress.percent, Num.int_truediv.
  rewrite Z.sub_0_r, Z.sub_diag.
  destruct (Z.eqb_spec total 0) as [E|_]; [contradiction|].
  split.
  - rewrite xorb_nilpotent.
    replace (64 + Z.log2 (Z.abs total) - Z.log2 (Z.abs total))%Z with 64%Z
      by lia.
    change (Z.max 0 64) with 64%Z.
    rewrite Z.shiftl_mul_pow2 by lia.
    rewrite (Z.mul_comm (Z.abs total)).
    rewrite Z.div_mul, Z.mod_mul by lia.
    vm_compute. reflexivity.
  - change (Z.abs 0) with 0%Z. rewrite Z.shiftl_0_l.
    rewrite Z.div_0_l, Zmod_0_l by lia.
    destruct (total <? 0)%Z; cbn; reflexivity.
Qed.

Lemma percent_at_both_ends_witness :
  Progress.percent 1000 0 = Returned 0%float
  /\ Progress.percent 1000 1000 = Returned 100%float.
Proof.
  apply (percent_at_both_ends 1000). lia.
Defined.
